(** * blues/reporters.py: reporting cadence, write-on-report protocol,
      reporter factory and logging bootstrap.

    Shallow embedding of [src/blues/reporters.py].  Python integers are [Z],
    strings are [string], dictionaries keyed by strings are [gmap string _],
    lists are [list].  A Python call that can raise returns in an error
    monad; a method that mutates [self] or talks to a file object runs in a
    state monad over the object that also records the calls it issues to the
    external libraries (mdtraj, parmed, OpenMM, logging).

    What those libraries do with a call is not modelled: a call is recorded
    and taken to return, except for the base classes' [_checkForErrors],
    whose verdict comes with the state snapshot, for the reporter
    constructors called by the factory, whose behaviour is a parameter, and
    for the functions of [logging], which run on the very namespaces that
    [addLoggingLevel] assigns (module [Logging]).
    Frame indices and intervals are integers, option flags are booleans. *)

From stdpp Require Import gmap strings list fin_maps.
From Stdlib Require Import ZArith Lia.

Open Scope string_scope.
Open Scope list_scope.
Open Scope Z_scope.

(** ** Python exceptions and results *)

Inductive exn :=
| ValueError (msg : string)
| TypeError (msg : string)
| AttributeError (attr : string)
| UnboundLocalError (var : string)
| ZeroDivisionError
| RecursionError
| NameError (name : string)
| Unmodelled (what : string).   (* no Python exception: see [Logging] *)

Inductive result (A : Type) :=
| Ok (a : A)
| Raise (e : exn).
Arguments Ok {A} a.
Arguments Raise {A} e.

Definition is_ok {A} (r : result A) : bool :=
  match r with Ok _ => true | Raise _ => false end.

Definition result_map {A B} (f : A → B) (r : result A) : result B :=
  match r with Ok a => Ok (f a) | Raise e => Raise e end.

(** A method body: it runs on the object state [S], issues calls [E] to the
    outside, and returns or raises.  A raise keeps the state reached and the
    calls issued so far, as a Python exception leaves attribute assignments
    in place. *)
Definition M (S E A : Type) : Type := S → S * list E * result A.

Definition ret {S E A} (a : A) : M S E A := λ s, (s, [], Ok a).
Definition raise {S E A} (e : exn) : M S E A := λ s, (s, [], Raise e).
Definition bind {S E A B} (m : M S E A) (k : A → M S E B) : M S E B :=
  λ s, match m s with
       | (s1, t1, Ok a) =>
           match k a s1 with (s2, t2, r) => (s2, t1 ++ t2, r) end
       | (s1, t1, Raise e) => (s1, t1, Raise e)
       end.
Definition get {S E} : M S E S := λ s, (s, [], Ok s).
Definition modify {S E} (f : S → S) : M S E unit := λ s, (f s, [], Ok tt).
Definition emit {S E} (e : E) : M S E unit := λ s, (s, [e], Ok tt).
Definition when {S E} (b : bool) (m : M S E unit) : M S E unit :=
  if b then m else ret tt.
Definition lift {S E A} (r : result A) : M S E A := λ s, (s, [], r).

Notation "'let!' x ':=' m 'in' k" := (bind m (λ x, k))
  (at level 10, x name, m at level 100, k at level 200, only parsing).
Notation "m ;;; k" := (bind m (λ _, k))
  (at level 100, k at level 200, right associativity, only parsing).

(** [x % y] on Python integers: floor modulo, the sign of the divisor;
    [ZeroDivisionError] for a zero divisor. *)
Definition py_mod (x y : Z) : result Z :=
  if decide (y = 0) then Raise ZeroDivisionError else Ok (x mod y).

(** Truth value of a list and of a string: non-empty. *)
Definition truthy {A} (l : list A) : bool :=
  match l with [] => false | _ => true end.
Definition truthy_str (s : string) : bool :=
  match s with EmptyString => false | _ => true end.

(** [if flag: l.append(x)] on a local list. *)
Definition append_if {A} (flag : bool) (l : list A) (x : A) : list A :=
  if flag then l ++ [x] else l.

Arguments append_if : simpl never.

(** ** [_check_mode] (lines 19-24) *)

Definition check_mode_message (m : string) : string :=
  "This operation is only available when a file is open in mode=" +:+
  String (Ascii.ascii_of_nat 34) m +:+ String (Ascii.ascii_of_nat 34) ".".

Definition _check_mode (m : string) (modes : list string) : result unit :=
  if bool_decide (m ∈ modes) then Ok tt
  else Raise (ValueError (check_mode_message m)).

(** ** The simulation and the state snapshot handed in by the engine

    Floating-point payloads are carried as data; no arithmetic on them is
    performed here. *)
Record float := Float { mantissa : Z; exponent : Z }.

Definition vec3 : Type := float * float * float.

Record Integrator := {
  lambda : float;               (* getGlobalVariableByName('lambda') *)
  protocol_work : float;        (* get_protocol_work(dimensionless=True) *)
}.

Record Simulation := {
  currentStep : Z;
  currentIter : option Z;       (* None: the attribute is absent *)
  integrator : Integrator;
  unitCellDimensions : option vec3;   (* topology.getUnitCellDimensions() *)
}.

Record State := {
  getPositions : list vec3;
  getVelocities : list vec3;
  getForces : list vec3;
  getPotentialEnergy : float;
  getKineticEnergy : float;
  getTime : float;
  getPeriodicBoxVectors : vec3 * vec3 * vec3;
  passesErrorCheck : bool;      (* the base class's _checkForErrors returns *)
}.

(** The cadence descriptor: steps until the next report and the four
    needs-flags. *)
Definition cadence : Type := Z * bool * bool * bool * bool.

Definition steps_of (c : cadence) : Z :=
  match c with (s, _, _, _, _) => s end.

(** The cadence decision as the three [describeNextReport] bodies write it:
    two consecutive [if]s assigning the local [steps]. *)
Definition next_steps (frame_indices : list Z) (_reportInterval : Z)
    (currentStep : Z) : result Z :=
  let steps : option Z :=
    if truthy frame_indices then
      if bool_decide (currentStep ∈ frame_indices) then Some 1 else Some (-1)
    else None in
  match
    (if negb (truthy frame_indices) then
       match py_mod currentStep _reportInterval with
       | Ok steps_left => Ok (Some (_reportInterval - steps_left))
       | Raise e => Raise e
       end
     else Ok steps)
  with
  | Ok (Some steps) => Ok steps
  | Ok None => Raise (UnboundLocalError "steps")
  | Raise e => Raise e
  end.

(** The constructors' treatment of [frame_indices] (lines 339-343, 527-532,
    771-775). *)
Definition shift_frame_indices (frame_indices : list Z) : list Z :=
  if truthy frame_indices then (λ x, x - 1) <$> frame_indices
  else frame_indices.

(** ** [BLUESHDF5Reporter] (lines 250-433) *)
Module BLUESHDF5Reporter.

(** Calls issued to mdtraj: the base class's [_initialize] and
    [_checkForErrors], and [write] / [flush] on the trajectory file.  A
    write is recorded with whether the coordinates were passed and the
    keyword names in the order they were set. *)
Inductive call :=
| Initialize
| CheckForErrors
| Write (coordinates : bool) (kwargs : list string)
| Flush.

Record t := {
  (* set by the mdtraj base constructor from the arguments passed up *)
  _reportInterval : Z;
  _coordinates : bool;
  _time : bool;
  _cell : bool;
  _potentialEnergy : bool;
  _kineticEnergy : bool;
  _temperature : bool;
  _velocities : bool;
  _needEnergy : bool;
  _is_intialized : bool;
  traj_file_has_flush : bool;   (* hasattr(self._traj_file, 'flush') *)
  (* set by this class *)
  _protocolWork : bool;
  _alchemicalLambda : bool;
  _environment : bool;
  _title : string;
  _parameters : list (string * string);
  frame_indices : list Z;
}.

Definition __init__ (has_flush : bool) (reportInterval : Z) (title : string)
    (coordinates : bool) (frame_indices : list Z)
    (time cell temperature potentialEnergy kineticEnergy velocities : bool)
    (protocolWork alchemicalLambda : bool)
    (parameters : list (string * string)) (environment : bool) : t :=
  {| _reportInterval := reportInterval;
     _coordinates := coordinates;
     _time := time;
     _cell := cell;
     _potentialEnergy := potentialEnergy;
     _kineticEnergy := kineticEnergy;
     _temperature := temperature;
     _velocities := velocities;
     _needEnergy := potentialEnergy || kineticEnergy || temperature;
     _is_intialized := false;
     traj_file_has_flush := has_flush;
     _protocolWork := protocolWork;
     _alchemicalLambda := alchemicalLambda;
     _environment := environment;
     _title := title;
     _parameters := parameters;
     frame_indices := shift_frame_indices frame_indices |}.

Definition describeNextReport (self : t) (simulation : Simulation)
    : result cadence :=
  match next_steps (frame_indices self) (_reportInterval self)
          (currentStep simulation) with
  | Ok steps =>
      Ok (steps, _coordinates self, _velocities self, false, _needEnergy self)
  | Raise e => Raise e
  end.

Definition set_initialized (self : t) : t :=
  {| _reportInterval := _reportInterval self;
     _coordinates := _coordinates self;
     _time := _time self;
     _cell := _cell self;
     _potentialEnergy := _potentialEnergy self;
     _kineticEnergy := _kineticEnergy self;
     _temperature := _temperature self;
     _velocities := _velocities self;
     _needEnergy := _needEnergy self;
     _is_intialized := true;
     traj_file_has_flush := traj_file_has_flush self;
     _protocolWork := _protocolWork self;
     _alchemicalLambda := _alchemicalLambda self;
     _environment := _environment self;
     _title := _title self;
     _parameters := _parameters self;
     frame_indices := frame_indices self |}.

(** The keyword arguments of [write], in assignment order
    (lines 396-424). *)
Definition write_kwargs (self : t) : list string :=
  let kwargs := [] in
  let kwargs := append_if (_time self) kwargs "time" in
  let kwargs := if _cell self
                then kwargs ++ ["cell_lengths"; "cell_angles"] else kwargs in
  let kwargs := append_if (_potentialEnergy self) kwargs "potentialEnergy" in
  let kwargs := append_if (_kineticEnergy self) kwargs "kineticEnergy" in
  let kwargs := append_if (_temperature self) kwargs "temperature" in
  let kwargs := append_if (_velocities self) kwargs "velocities" in
  let kwargs := append_if (_protocolWork self) kwargs "protocolWork" in
  let kwargs := append_if (_alchemicalLambda self) kwargs "alchemicalLambda" in
  let kwargs := append_if (truthy_str (_title self)) kwargs "title" in
  let kwargs := append_if (truthy (_parameters self)) kwargs "parameters" in
  let kwargs := append_if (_environment self) kwargs "environment" in
  kwargs.

Definition _checkForErrors (state : State) : M t call unit :=
  emit CheckForErrors ;;;
  if passesErrorCheck state then ret tt
  else raise (ValueError "Energy is NaN").

Definition report (simulation : Simulation) (state : State) : M t call unit :=
  let! self := get in
  when (negb (_is_intialized self))
    (emit Initialize ;;; modify set_initialized) ;;;
  _checkForErrors state ;;;
  let! self := get in
  emit (Write (_coordinates self) (write_kwargs self)) ;;;
  when (traj_file_has_flush self) (emit Flush).

End BLUESHDF5Reporter.

(** ** [BLUESStateDataReporter] (lines 436-728) *)
Module BLUESStateDataReporter.

(** The object passed as [file]: [self._out], aliased as [self.log].  It
    may be a logger (with [info], perhaps a custom-level [report], and no
    [flush]) or a file-like object.  [info] records what [log.info] is
    bound to: the assignment [self.log.info = self.log.report] rebinds
    it.  [autoflush] says what the object's own [info] and [report] do with
    a line: a logger whose handlers are the library's stream and file
    handlers, as [init_logger] attaches them, flushes each record as it is
    emitted; a logger behind a buffering handler
    ([logging.handlers.MemoryHandler]) keeps it in memory. *)
Inductive info_binding := OwnInfo | BoundToReport.

Record stream := {
  info : option info_binding;   (* None: no attribute info *)
  has_report : bool;            (* hasattr(self.log, 'report') *)
  has_flush : bool;             (* self._out.flush exists *)
  autoflush : bool;             (* info/report flush what they write *)
}.

(** A reported quantity, kept as the expression that the source computes
    for it. *)
Inductive remaining :=
| Dashes
| Estimate (totalSteps initialSteps elapsedSteps : Z)
           (clockTime initialClockTime : float).

Inductive value :=
| VCurrentIter (i : Z)
| VProgress (currentStep totalSteps : Z)
| VStep (currentStep : Z)
| VTime (time : float)
| VAlchemicalLambda (l : float)
| VProtocolWork (w : float)
| VPotentialEnergy (pe : float)
| VKineticEnergy (ke : float)
| VTotalEnergy (ke pe : float)
| VTemperature (ke : float)
| VVolume (box : vec3 * vec3 * vec3)
| VDensity (box : vec3 * vec3 * vec3)
| VSpeed (clockTime initialClockTime time initialSimulationTime : float)
| VElapsedTime (clockTime initialClockTime : float)
| VRemainingTime (r : remaining).

Inductive line :=
| HeaderLine (separator : string) (headers : list string)
| ValueLine (title separator : string) (values : list value).

Inductive call :=
| InitializeConstants
| CheckForErrors
| Info (l : line)          (* the object's own info method *)
| Report (l : line)        (* the object's report method *)
| Flush.

Record t := {
  (* set by the OpenMM base constructor from the arguments passed up *)
  _out : stream;
  _reportInterval : Z;
  _step : bool;
  _time : bool;
  _potentialEnergy : bool;
  _kineticEnergy : bool;
  _totalEnergy : bool;
  _temperature : bool;
  _volume : bool;
  _density : bool;
  _progress : bool;
  _remainingTime : bool;
  _speed : bool;
  _elapsedTime : bool;
  _separator : string;
  _totalSteps : option Z;
  _hasInitialized : bool;
  _needsPositions : bool;
  _needsVelocities : bool;
  _needsForces : bool;
  _needEnergy : bool;
  _initialClockTime : option float;
  _initialSimulationTime : option float;
  _initialSteps : option Z;
  (* set by this class *)
  title : string;
  frame_indices : list Z;
  _protocolWork : bool;
  _alchemicalLambda : bool;
  _currentIter : bool;
}.

Definition __init__ (file : stream) (reportInterval : Z)
    (frame_indices : list Z) (title : string)
    (step time potentialEnergy kineticEnergy totalEnergy temperature
     volume density progress remainingTime speed elapsedTime : bool)
    (separator : string) (totalSteps : option Z)
    (protocolWork alchemicalLambda currentIter : bool) : t :=
  {| _out := file;
     _reportInterval := reportInterval;
     _step := step;
     _time := time;
     _potentialEnergy := potentialEnergy;
     _kineticEnergy := kineticEnergy;
     _totalEnergy := totalEnergy;
     _temperature := temperature;
     _volume := volume;
     _density := density;
     _progress := progress;
     _remainingTime := remainingTime;
     _speed := speed;
     _elapsedTime := elapsedTime;
     _separator := separator;
     _totalSteps := totalSteps;
     _hasInitialized := false;
     _needsPositions := false;
     _needsVelocities := false;
     _needsForces := false;
     _needEnergy :=
       potentialEnergy || kineticEnergy || totalEnergy || temperature;
     _initialClockTime := None;
     _initialSimulationTime := None;
     _initialSteps := None;
     title := title;
     frame_indices := shift_frame_indices frame_indices;
     _protocolWork := protocolWork;
     _alchemicalLambda := alchemicalLambda;
     _currentIter := currentIter |}.

Definition describeNextReport (self : t) (simulation : Simulation)
    : result cadence :=
  match next_steps (frame_indices self) (_reportInterval self)
          (currentStep simulation) with
  | Ok steps =>
      Ok (steps, _needsPositions self, _needsVelocities self,
          _needsForces self, _needEnergy self)
  | Raise e => Raise e
  end.

(** [_constructHeaders] (lines 689-728). *)
Definition _constructHeaders (self : t) : list string :=
  let headers := [] in
  let headers := append_if (_currentIter self) headers "Iter" in
  let headers := append_if (_progress self) headers "Progress (%)" in
  let headers := append_if (_step self) headers "Step" in
  let headers := append_if (_time self) headers "Time (ps)" in
  let headers := append_if (_alchemicalLambda self) headers
      "alchemicalLambda" in
  let headers := append_if (_protocolWork self) headers "protocolWork" in
  let headers := append_if (_potentialEnergy self) headers
      "Potential Energy (kJ/mole)" in
  let headers := append_if (_kineticEnergy self) headers
      "Kinetic Energy (kJ/mole)" in
  let headers := append_if (_totalEnergy self) headers
      "Total Energy (kJ/mole)" in
  let headers := append_if (_temperature self) headers "Temperature (K)" in
  let headers := append_if (_volume self) headers "Box Volume (nm^3)" in
  let headers := append_if (_density self) headers "Density (g/mL)" in
  let headers := append_if (_speed self) headers "Speed (ns/day)" in
  let headers := append_if (_elapsedTime self) headers "Elapsed Time (s)" in
  let headers := append_if (_remainingTime self) headers "Time Remaining" in
  headers.

(** Attribute assignments on [self]. *)
Definition set_out (o : stream) (self : t) : t :=
  {| _out := o;
     _reportInterval := _reportInterval self;
     _step := _step self;
     _time := _time self;
     _potentialEnergy := _potentialEnergy self;
     _kineticEnergy := _kineticEnergy self;
     _totalEnergy := _totalEnergy self;
     _temperature := _temperature self;
     _volume := _volume self;
     _density := _density self;
     _progress := _progress self;
     _remainingTime := _remainingTime self;
     _speed := _speed self;
     _elapsedTime := _elapsedTime self;
     _separator := _separator self;
     _totalSteps := _totalSteps self;
     _hasInitialized := _hasInitialized self;
     _needsPositions := _needsPositions self;
     _needsVelocities := _needsVelocities self;
     _needsForces := _needsForces self;
     _needEnergy := _needEnergy self;
     _initialClockTime := _initialClockTime self;
     _initialSimulationTime := _initialSimulationTime self;
     _initialSteps := _initialSteps self;
     title := title self;
     frame_indices := frame_indices self;
     _protocolWork := _protocolWork self;
     _alchemicalLambda := _alchemicalLambda self;
     _currentIter := _currentIter self |}.

Definition set_initial (clock time : float) (steps : Z) (self : t) : t :=
  {| _out := _out self;
     _reportInterval := _reportInterval self;
     _step := _step self;
     _time := _time self;
     _potentialEnergy := _potentialEnergy self;
     _kineticEnergy := _kineticEnergy self;
     _totalEnergy := _totalEnergy self;
     _temperature := _temperature self;
     _volume := _volume self;
     _density := _density self;
     _progress := _progress self;
     _remainingTime := _remainingTime self;
     _speed := _speed self;
     _elapsedTime := _elapsedTime self;
     _separator := _separator self;
     _totalSteps := _totalSteps self;
     _hasInitialized := _hasInitialized self;
     _needsPositions := _needsPositions self;
     _needsVelocities := _needsVelocities self;
     _needsForces := _needsForces self;
     _needEnergy := _needEnergy self;
     _initialClockTime := Some clock;
     _initialSimulationTime := Some time;
     _initialSteps := Some steps;
     title := title self;
     frame_indices := frame_indices self;
     _protocolWork := _protocolWork self;
     _alchemicalLambda := _alchemicalLambda self;
     _currentIter := _currentIter self |}.

Definition set_hasInitialized (self : t) : t :=
  {| _out := _out self;
     _reportInterval := _reportInterval self;
     _step := _step self;
     _time := _time self;
     _potentialEnergy := _potentialEnergy self;
     _kineticEnergy := _kineticEnergy self;
     _totalEnergy := _totalEnergy self;
     _temperature := _temperature self;
     _volume := _volume self;
     _density := _density self;
     _progress := _progress self;
     _remainingTime := _remainingTime self;
     _speed := _speed self;
     _elapsedTime := _elapsedTime self;
     _separator := _separator self;
     _totalSteps := _totalSteps self;
     _hasInitialized := true;
     _needsPositions := _needsPositions self;
     _needsVelocities := _needsVelocities self;
     _needsForces := _needsForces self;
     _needEnergy := _needEnergy self;
     _initialClockTime := _initialClockTime self;
     _initialSimulationTime := _initialSimulationTime self;
     _initialSteps := _initialSteps self;
     title := title self;
     frame_indices := frame_indices self;
     _protocolWork := _protocolWork self;
     _alchemicalLambda := _alchemicalLambda self;
     _currentIter := _currentIter self |}.

Definition set_info (b : info_binding) (o : stream) : stream :=
  {| info := Some b; has_report := has_report o; has_flush := has_flush o;
     autoflush := autoflush o |}.

Definition set_currentIter (i : Z) (sim : Simulation) : Simulation :=
  {| currentStep := currentStep sim;
     currentIter := Some i;
     integrator := integrator sim;
     unitCellDimensions := unitCellDimensions sim |}.

(** The readings of [time.time()] one call of [report] can take
    (lines 583, 622 and 663). *)
Record Clock := {
  at_initialization : float;
  at_values : float;
  at_elapsedTime : float;
}.

(** Reading an attribute that [report] sets during initialization. *)
Definition getattr {A} (name : string) (o : option A) : result A :=
  match o with Some a => Ok a | None => Raise (AttributeError name) end.

(** [100.0 * simulation.currentStep / self._totalSteps] (line 628). *)
Definition progress_value (currentStep : Z) (totalSteps : option Z)
    : result value :=
  match totalSteps with
  | None => Raise (TypeError "unsupported operand type(s) for /")
  | Some n =>
      if decide (n = 0) then Raise ZeroDivisionError
      else Ok (VProgress currentStep n)
  end.

(** Lines 664-686: the remaining-time estimate. *)
Definition remaining_value (self : t) (clockTime : float) (currentStep : Z)
    : result value :=
  match getattr "_initialClockTime" (_initialClockTime self) with
  | Raise e => Raise e
  | Ok initialClockTime =>
      match getattr "_initialSteps" (_initialSteps self) with
      | Raise e => Raise e
      | Ok initialSteps =>
          let elapsedSteps := currentStep - initialSteps in
          if decide (elapsedSteps = 0) then Ok (VRemainingTime Dashes)
          else
            match _totalSteps self with
            | None => Raise (TypeError "unsupported operand type(s) for -")
            | Some totalSteps =>
                Ok (VRemainingTime
                      (Estimate totalSteps initialSteps elapsedSteps
                         clockTime initialClockTime))
            end
      end
  end.

(** [_constructReportValues] (lines 602-687).  It runs on the simulation
    object, on which it may create the attribute [currentIter]. *)
Definition _constructReportValues (self : t) (state : State) (clock : Clock)
    : M Simulation call (list value) :=
  let values := [] in
  let box := getPeriodicBoxVectors state in
  let clockTime := at_values clock in
  let! values :=
    (if _currentIter self then
       let! simulation := get in
       when (bool_decide (currentIter simulation = None))
         (modify (set_currentIter 0)) ;;;
       let! simulation := get in
       let! i := lift (getattr "currentIter" (currentIter simulation)) in
       ret (values ++ [VCurrentIter i])
     else ret values) in
  let! simulation := get in
  let! values :=
    (if _progress self then
       let! v := lift (progress_value (currentStep simulation)
                         (_totalSteps self)) in
       ret (values ++ [v])
     else ret values) in
  let values := append_if (_step self) values
      (VStep (currentStep simulation)) in
  let values := append_if (_time self) values (VTime (getTime state)) in
  let values := append_if (_alchemicalLambda self) values
      (VAlchemicalLambda (lambda (integrator simulation))) in
  let values := append_if (_protocolWork self) values
      (VProtocolWork (protocol_work (integrator simulation))) in
  let values := append_if (_potentialEnergy self) values
      (VPotentialEnergy (getPotentialEnergy state)) in
  let values := append_if (_kineticEnergy self) values
      (VKineticEnergy (getKineticEnergy state)) in
  let values := append_if (_totalEnergy self) values
      (VTotalEnergy (getKineticEnergy state) (getPotentialEnergy state)) in
  let values := append_if (_temperature self) values
      (VTemperature (getKineticEnergy state)) in
  let values := append_if (_volume self) values (VVolume box) in
  let values := append_if (_density self) values (VDensity box) in
  let! values :=
    (if _speed self then
       let! c0 := lift (getattr "_initialClockTime"
                          (_initialClockTime self)) in
       let! t0 := lift (getattr "_initialSimulationTime"
                          (_initialSimulationTime self)) in
       ret (values ++ [VSpeed clockTime c0 (getTime state) t0])
     else ret values) in
  let! values :=
    (if _elapsedTime self then
       let! c0 := lift (getattr "_initialClockTime"
                          (_initialClockTime self)) in
       ret (values ++ [VElapsedTime (at_elapsedTime clock) c0])
     else ret values) in
  let! values :=
    (if _remainingTime self then
       let! value := lift (remaining_value self clockTime
                             (currentStep simulation)) in
       ret (values ++ [value])
     else ret values) in
  ret values.

(** Running a method of one object inside a method of a pair. *)
Definition on_self {A} (m : M t call A) : M (t * Simulation) call A :=
  λ s, match m (fst s) with (self, tr, r) => ((self, snd s), tr, r) end.
Definition on_simulation {A} (m : M Simulation call A)
    : M (t * Simulation) call A :=
  λ s, match m (snd s) with (sim, tr, r) => ((fst s, sim), tr, r) end.

(** [try: ... except AttributeError: pass]. *)
Definition except_AttributeError_pass {S} (m : M S call unit)
    : M S call unit :=
  λ s, match m s with
       | (s1, tr, Raise (AttributeError _)) => (s1, tr, Ok tt)
       | other => other
       end.

(** [if hasattr(self.log, 'report'): self.log.info = self.log.report]. *)
Definition rebind_info : M t call unit :=
  let! self := get in
  when (has_report (_out self))
    (modify (set_out (set_info BoundToReport (_out self)))).

(** [self.log.info(l)]. *)
Definition log_info (l : line) : M t call unit :=
  let! self := get in
  match info (_out self) with
  | None => raise (AttributeError "info")
  | Some OwnInfo => emit (Info l)
  | Some BoundToReport => emit (Report l)
  end.

(** [self._out.flush()]. *)
Definition out_flush : M t call unit :=
  let! self := get in
  if has_flush (_out self) then emit Flush
  else raise (AttributeError "flush").

Definition _checkForErrors (state : State) : M t call unit :=
  emit CheckForErrors ;;;
  if passesErrorCheck state then ret tt
  else raise (ValueError "Energy is NaN").

(** [report] (lines 563-600). *)
Definition report (state : State) (clock : Clock)
    : M (t * Simulation) call unit :=
  let! s := get in
  when (negb (_hasInitialized (fst s)))
    (on_self (emit InitializeConstants) ;;;
     let! s := get in
     let headers := _constructHeaders (fst s) in
     on_self rebind_info ;;;
     on_self (log_info (HeaderLine (_separator (fst s)) headers)) ;;;
     on_self (except_AttributeError_pass out_flush) ;;;
     let! s := get in
     on_self (modify (set_initial (at_initialization clock) (getTime state)
                        (currentStep (snd s)))) ;;;
     on_self (modify set_hasInitialized)) ;;;
  on_self (_checkForErrors state) ;;;
  let! s := get in
  let! values := on_simulation (_constructReportValues (fst s) state clock) in
  on_self rebind_info ;;;
  let! s := get in
  on_self (log_info (ValueLine (title (fst s)) (_separator (fst s))
                       values)) ;;;
  on_self (except_AttributeError_pass out_flush).

(** The pieces of one call of [report], named for the statements about it:
    the reporter once [self.log.info] has been rebound, the call that
    writes a line, the flush that may follow, and the reporter as the
    initialization block leaves it. *)
Definition rebound (self : t) : t :=
  if has_report (_out self)
  then set_out (set_info BoundToReport (_out self)) self
  else self.

Definition written (self : t) (l : line) : call :=
  match info (_out (rebound self)) with
  | Some BoundToReport => Report l
  | _ => Info l
  end.

Definition flushed (self : t) : list call :=
  if has_flush (_out self) then [Flush] else [].

Definition initialized_at (clock : Clock) (state : State)
    (simulation : Simulation) (self : t) : t :=
  set_hasInitialized
    (set_initial (at_initialization clock) (getTime state)
       (currentStep simulation) (rebound self)).

(** The output object can take a line: it has [info] or [report]. *)
Definition writable (self : t) : bool :=
  bool_decide (is_Some (info (_out self))) || has_report (_out self).

(** The names [__init__] accepts as keywords besides the positional [file]
    (lines 498-520). *)
Definition keyword_parameters : list string :=
  ["reportInterval"; "frame_indices"; "title"; "step"; "time";
   "potentialEnergy"; "kineticEnergy"; "totalEnergy"; "temperature";
   "volume"; "density"; "progress"; "remainingTime"; "speed"; "elapsedTime";
   "separator"; "systemMass"; "totalSteps"; "protocolWork";
   "alchemicalLambda"; "currentIter"].

(** *** The canonical column order, as the specification words it

    One column per option flag, in the fixed order Iter, Progress, Step,
    Time, alchemicalLambda, protocolWork, Potential Energy, Kinetic
    Energy, Total Energy, Temperature, Box Volume, Density, Speed,
    Elapsed Time, Time Remaining.  [_constructHeaders] and
    [_constructReportValues] above are compared with it. *)
Inductive column :=
| Iter | Progress | Step | Time | AlchemicalLambda | ProtocolWork
| PotentialEnergy | KineticEnergy | TotalEnergy | Temperature | BoxVolume
| Density | Speed | ElapsedTime | TimeRemaining.

#[global] Instance column_eq_dec : EqDecision column.
Proof. solve_decision. Defined.


Definition column_header (c : column) : string :=
  match c with
  | Iter => "Iter"
  | Progress => "Progress (%)"
  | Step => "Step"
  | Time => "Time (ps)"
  | AlchemicalLambda => "alchemicalLambda"
  | ProtocolWork => "protocolWork"
  | PotentialEnergy => "Potential Energy (kJ/mole)"
  | KineticEnergy => "Kinetic Energy (kJ/mole)"
  | TotalEnergy => "Total Energy (kJ/mole)"
  | Temperature => "Temperature (K)"
  | BoxVolume => "Box Volume (nm^3)"
  | Density => "Density (g/mL)"
  | Speed => "Speed (ns/day)"
  | ElapsedTime => "Elapsed Time (s)"
  | TimeRemaining => "Time Remaining"
  end.




End BLUESStateDataReporter.

(** ** [NetCDF4Reporter] (lines 731-865) *)
Module NetCDF4Reporter.

(** The trajectory object returned by [NetCDF4Traj.open_new], identified
    by the arguments it was opened with. *)
Record NetCDF4Traj := {
  nc_fname : string;
  nc_atom : nat;
  nc_uses_pbc : bool;
  nc_crds : bool;
  nc_vels : bool;
  nc_frcs : bool;
  nc_protocolWork : bool;
  nc_alchemicalLambda : bool;
}.

(** Calls issued to the trajectory class and object. *)
Inductive call :=
| OpenNew (traj : NetCDF4Traj)
| AddCellLengthsAngles (box : vec3 * vec3 * vec3)
| AddCoordinates (crds : list vec3)
| AddVelocities (vels : list vec3)
| AddForces (frcs : list vec3)
| AddProtocolWork (w : float)
| AddAlchemicalLambda (l : float)
| AddTime (time : float).

Record t := {
  (* set by the parmed base constructor *)
  _reportInterval : Z;
  fname : string;
  _out : option NetCDF4Traj;
  uses_pbc : bool;
  (* set by this class *)
  crds : bool;
  vels : bool;
  frcs : bool;
  protocolWork : bool;
  alchemicalLambda : bool;
  frame_indices : list Z;
}.

Definition __init__ (file : string) (reportInterval : Z)
    (frame_indices : list Z)
    (crds vels frcs protocolWork alchemicalLambda : bool) : t :=
  {| _reportInterval := reportInterval;
     fname := file;
     _out := None;
     uses_pbc := false;
     crds := crds;
     vels := vels;
     frcs := frcs;
     protocolWork := protocolWork;
     alchemicalLambda := alchemicalLambda;
     frame_indices := shift_frame_indices frame_indices |}.

Definition describeNextReport (self : t) (simulation : Simulation)
    : result cadence :=
  match next_steps (frame_indices self) (_reportInterval self)
          (currentStep simulation) with
  | Ok steps => Ok (steps, crds self, vels self, frcs self, false)
  | Raise e => Raise e
  end.

Definition set_out (traj : NetCDF4Traj) (self : t) : t :=
  {| _reportInterval := _reportInterval self;
     fname := fname self;
     _out := Some traj;
     uses_pbc := uses_pbc self;
     crds := crds self;
     vels := vels self;
     frcs := frcs self;
     protocolWork := protocolWork self;
     alchemicalLambda := alchemicalLambda self;
     frame_indices := frame_indices self |}.

Definition set_uses_pbc (pbc : bool) (self : t) : t :=
  {| _reportInterval := _reportInterval self;
     fname := fname self;
     _out := _out self;
     uses_pbc := pbc;
     crds := crds self;
     vels := vels self;
     frcs := frcs self;
     protocolWork := protocolWork self;
     alchemicalLambda := alchemicalLambda self;
     frame_indices := frame_indices self |}.

(** Lines 828-833: the atom count, from the first available array; the
    local [atom] stays unbound when none is requested. *)
Definition atom_count (self : t) (state : State) : result nat :=
  if crds self then Ok (length (getPositions state))
  else if vels self then Ok (length (getVelocities state))
  else if frcs self then Ok (length (getForces state))
  else Raise (UnboundLocalError "atom").

(** Lines 826-845: set up the trajectory at the first frame. *)
Definition open_trajectory (simulation : Simulation) (state : State)
    : M t call unit :=
  let! self := get in
  let atom := atom_count self state in
  let pbc := bool_decide (unitCellDimensions simulation ≠ None) in
  modify (set_uses_pbc pbc) ;;;
  let! atom := lift atom in
  let traj := {| nc_fname := fname self;
                 nc_atom := atom;
                 nc_uses_pbc := pbc;
                 nc_crds := crds self;
                 nc_vels := vels self;
                 nc_frcs := frcs self;
                 nc_protocolWork := protocolWork self;
                 nc_alchemicalLambda := alchemicalLambda self |} in
  emit (OpenNew traj) ;;;
  modify (set_out traj).

(** [report] (lines 804-865). *)
Definition report (simulation : Simulation) (state : State)
    : M t call unit :=
  let! self := get in
  when (bool_decide (_out self = None)) (open_trajectory simulation state) ;;;
  let! self := get in
  when (uses_pbc self)
    (emit (AddCellLengthsAngles (getPeriodicBoxVectors state))) ;;;
  when (crds self) (emit (AddCoordinates (getPositions state))) ;;;
  when (vels self) (emit (AddVelocities (getVelocities state))) ;;;
  when (frcs self) (emit (AddForces (getForces state))) ;;;
  when (protocolWork self)
    (emit (AddProtocolWork (protocol_work (integrator simulation)))) ;;;
  when (alchemicalLambda self)
    (emit (AddAlchemicalLambda (lambda (integrator simulation)))) ;;;
  emit (AddTime (getTime state)).

(** The names [__init__] accepts as keywords besides the positional [file]
    (lines 757-765). *)
Definition keyword_parameters : list string :=
  ["reportInterval"; "frame_indices"; "crds"; "vels"; "frcs"; "protocolWork";
   "alchemicalLambda"].

End NetCDF4Reporter.

(** ** [ReporterConfig] (lines 129-242) *)
Module ReporterConfig.

(** Values a configuration mapping holds. *)
Inductive pyval :=
| PyNone
| PyBool (b : bool)
| PyInt (z : Z)
| PyStr (s : string)
| PyList (l : list Z).

(** The options of one reporter kind: [self._cfg[kind]]. *)
Abbreviation options := (gmap string pyval).

(** A logger object, identified by its name. *)
Record Logger := { logger_name : string }.

(** [logging.getLogger(__name__)]. *)
Definition module_logger : Logger := {| logger_name := "blues.reporters" |}.

(** The five constructor calls [makeReporters] can issue, with their
    positional arguments; the options mapping is passed as keywords. *)
Inductive constructor :=
| StateDataReporter (file : string)
| NetCDF4Reporter (file : string)
| RestartReporter (file : string) (netcdf : bool)
| ProgressReporter (file : string)
| BLUESStateDataReporter (logger : Logger).

Record t := {
  _outfname : string;
  _cfg : gmap string options;
  _logger : option Logger;
  trajectory_interval : pyval;
}.

Definition __init__ (outfname : string) (reporter_config : gmap string options)
    (logger : option Logger) : t :=
  {| _outfname := outfname;
     _cfg := reporter_config;
     _logger := logger;
     trajectory_interval := PyInt 0 |}.

Definition set_trajectory_interval (v : pyval) (self : t) : t :=
  {| _outfname := _outfname self;
     _cfg := _cfg self;
     _logger := _logger self;
     trajectory_interval := v |}.

Definition set_logger (l : Logger) (self : t) : t :=
  {| _outfname := _outfname self;
     _cfg := _cfg self;
     _logger := Some l;
     trajectory_interval := trajectory_interval self |}.

(** [x + ext] for a configured value [x] and a string [ext]: string
    concatenation, a [TypeError] for any other operand type. *)
Definition py_add_str (x : pyval) (ext : string) : result string :=
  match x with
  | PyStr s => Ok (s +:+ ext)
  | _ => Raise (TypeError "unsupported operand type(s) for +")
  end.

(** The choice of the file-name prefix repeated for each kind: the
    reporter's own [outfname] option, else the top-level one. *)
Definition choose_outfname (self : t) (opts : options) : pyval :=
  match opts !! "outfname" with
  | Some v => v
  | None => PyStr (_outfname self)
  end.

Section makeReporters.
(** The reporter classes are those of parmed and of this module; what a
    constructor does with its arguments is left open. *)
Context {reporter : Type}.
Variable construct : constructor → options → result reporter.

(** A constructor call: recorded, and its result or exception passed
    on. *)
Definition new (c : constructor) (opts : options)
    : M t (constructor * options) reporter :=
  emit (c, opts) ;;; lift (construct c opts).

Definition makeReporters : M t (constructor * options) (list reporter) :=
  let Reporters := [] in
  let! self := get in
  let! Reporters :=
    (match _cfg self !! "state" with
     | Some opts =>
         let outfname := choose_outfname self opts in
         let! file := lift (py_add_str outfname ".ene") in
         let! state := new (StateDataReporter file) opts in
         ret (Reporters ++ [state])
     | None => ret Reporters
     end) in
  let! Reporters :=
    (match _cfg self !! "traj_netcdf" with
     | Some opts =>
         let outfname := choose_outfname self opts in
         when (bool_decide (is_Some (opts !! "reportInterval")))
           (modify (set_trajectory_interval
                      (default PyNone (opts !! "reportInterval")))) ;;;
         let! file := lift (py_add_str outfname ".nc") in
         let! traj_netcdf := new (NetCDF4Reporter file) opts in
         ret (Reporters ++ [traj_netcdf])
     | None => ret Reporters
     end) in
  let! Reporters :=
    (match _cfg self !! "restart" with
     | Some opts =>
         let outfname := choose_outfname self opts in
         let! file := lift (py_add_str outfname ".rst7") in
         let! restart := new (RestartReporter file true) opts in
         ret (Reporters ++ [restart])
     | None => ret Reporters
     end) in
  let! Reporters :=
    (match _cfg self !! "progress" with
     | Some opts =>
         let outfname := choose_outfname self opts in
         let! file := lift (py_add_str outfname ".prog") in
         let! progress := new (ProgressReporter file) opts in
         ret (Reporters ++ [progress])
     | None => ret Reporters
     end) in
  let! Reporters :=
    (match _cfg self !! "stream" with
     | Some opts =>
         let! self := get in
         when (bool_decide (_logger self = None))
           (modify (set_logger module_logger)) ;;;
         let! self := get in
         let logger := default module_logger (_logger self) in
         let! stream := new (BLUESStateDataReporter logger) opts in
         ret (Reporters ++ [stream])
     | None => ret Reporters
     end) in
  ret Reporters.
End makeReporters.

(** The recognized reporter kinds, and the kind a constructor call
    belongs to. *)
Definition recognized : list string :=
  ["state"; "traj_netcdf"; "restart"; "progress"; "stream"].

Definition kind_of (c : constructor) : string :=
  match c with
  | StateDataReporter _ => "state"
  | NetCDF4Reporter _ => "traj_netcdf"
  | RestartReporter _ _ => "restart"
  | ProgressReporter _ => "progress"
  | BLUESStateDataReporter _ => "stream"
  end.

(** The same configuration object holding another mapping. *)
Definition with_cfg (cfg : gmap string options) (self : t) : t :=
  {| _outfname := _outfname self;
     _cfg := cfg;
     _logger := _logger self;
     trajectory_interval := trajectory_interval self |}.

(** A reporter seen as the constructor call that made it: the instance
    of [construct] under which every constructor accepts its arguments. *)
Definition as_called (c : constructor) (opts : options)
    : result (constructor * options) := Ok (c, opts).

(** The file-name extension of each kind that writes to a file
    (lines 200, 214, 224, 234). *)
Definition extension (kind : string) : string :=
  if decide (kind = "state") then ".ene"
  else if decide (kind = "traj_netcdf") then ".nc"
  else if decide (kind = "restart") then ".rst7"
  else if decide (kind = "progress") then ".prog"
  else "".

(** The constructor call a kind stands for, given the file name or the
    logger it is to get. *)
Definition constructor_for (kind file : string) (logger : Logger)
    : constructor :=
  if decide (kind = "state") then StateDataReporter file
  else if decide (kind = "traj_netcdf") then NetCDF4Reporter file
  else if decide (kind = "restart") then RestartReporter file true
  else if decide (kind = "progress") then ProgressReporter file
  else BLUESStateDataReporter logger.

(** The options of a kind name a usable file prefix: no [outfname] option,
    or a string. *)
Definition outfname_is_str (opts : options) : bool :=
  match opts !! "outfname" with
  | None | Some (PyStr _) => true
  | Some _ => false
  end.

(** The prefix then chosen. *)
Definition outfname_of (self : t) (opts : options) : string :=
  match opts !! "outfname" with
  | Some (PyStr s) => s
  | _ => _outfname self
  end.

(** Python's binding of the forwarded options to the signatures of the two
    constructors defined in this file: a key that names no keyword parameter
    is a [TypeError], raised before the constructor body runs.  The parmed
    constructors are not constrained. *)
Definition binds (c : constructor) (opts : options) : bool :=
  match c with
  | NetCDF4Reporter _ =>
      bool_decide
        (map_Forall (λ k _, k ∈ NetCDF4Reporter.keyword_parameters) opts)
  | BLUESStateDataReporter _ =>
      bool_decide
        (map_Forall (λ k _, k ∈ BLUESStateDataReporter.keyword_parameters)
           opts)
  | _ => true
  end.

Definition obeys_signatures {reporter : Type}
    (construct : constructor → options → result reporter) : Prop :=
  ∀ c opts, binds c opts = false →
            ∃ msg, construct c opts = Raise (TypeError msg).

(** The constructor call as recorded once its keywords are bound. *)
Definition bound_call (c : constructor) (opts : options)
    : result (constructor * options) :=
  if binds c opts then Ok (c, opts)
  else Raise (TypeError "__init__() got an unexpected keyword argument").



End ReporterConfig.

(** ** [addLoggingLevel] (lines 27-85)

    The [logging] module and the logger class are shared namespaces that
    the function both reads and assigns; every [logging.f(...)] looks [f] up
    at the time of the call. *)
Module Logging.

(** What a name of the [logging] module or of the logger class is bound
    to: the object the library itself defines under that name, an integer
    level assigned by [setattr(logging, levelName, levelNum)] (or one of the
    library's own level constants), or one of the two closures built by
    [addLoggingLevel]. *)
Inductive binding :=
| Library
| Level (levelNum : Z)
| logToRoot (levelNum : Z)
| logForLevel (levelNum : Z).

#[global] Instance binding_eq_dec : EqDecision binding.
Proof. solve_decision. Defined.

(** A first argument handed to the library's [logging.log]. *)
Inductive message :=
| Text (s : string)
| Number (z : Z).

(** What reaches the library. *)
Inductive call :=
| Warn (msg : string)                   (* the library's logging.warn *)
| Log (levelNum : Z) (msg : message).   (* the library's logging.log *)

(** The two namespaces [addLoggingLevel] reads and assigns, the level
    tables kept by [addLevelName], and, for reference, the two namespaces
    as the library defines them when it is imported, which nothing here
    assigns. *)
Record logging := {
  module_attrs : gmap string binding;   (* vars(logging) *)
  class_attrs : gmap string binding;    (* names visible on the logger class *)
  _levelToName : gmap Z string;
  _nameToLevel : gmap string Z;
  module_library : gmap string binding; (* vars(logging) as imported *)
  class_library : gmap string binding;  (* the logger class as imported *)
}.

Definition setattr_module (name : string) (b : binding) (l : logging)
    : logging :=
  {| module_attrs := <[name := b]> (module_attrs l);
     class_attrs := class_attrs l;
     _levelToName := _levelToName l;
     _nameToLevel := _nameToLevel l;
     module_library := module_library l;
     class_library := class_library l |}.

Definition setattr_class (name : string) (b : binding) (l : logging)
    : logging :=
  {| module_attrs := module_attrs l;
     class_attrs := <[name := b]> (class_attrs l);
     _levelToName := _levelToName l;
     _nameToLevel := _nameToLevel l;
     module_library := module_library l;
     class_library := class_library l |}.

(** The library's [addLevelName(level, levelName)]. *)
Definition register_level (levelNum : Z) (levelName : string) (l : logging)
    : logging :=
  {| module_attrs := module_attrs l;
     class_attrs := class_attrs l;
     _levelToName := <[levelNum := levelName]> (_levelToName l);
     _nameToLevel := <[levelName := levelNum]> (_nameToLevel l);
     module_library := module_library l;
     class_library := class_library l |}.

Definition not_callable : exn := TypeError "'int' object is not callable".
Definition bad_arguments : exn :=
  TypeError "missing required positional argument".

(** Every name the library defines is bound as the library bound it. *)
Definition agrees (library attrs : gmap string binding) : bool :=
  forallb (λ entry, bool_decide (attrs !! entry.1 = Some entry.2))
    (map_to_list library).

(** The library's functions and methods read each other, the level
    constants and the module's private globals by name when they run
    ([warn] calls [warning], which reads [root], whose methods are the
    class's; [addLevelName] takes the module's lock).  Which names a given
    function reads is the library's business and differs between its
    versions.  What is used here is that a library function does what the
    library documents (under Python's default warning filters) while no
    name the library defines, in the module or on the class, is bound to
    anything else. *)
Definition intact (l : logging) : bool :=
  agrees (module_library l) (module_attrs l)
  && agrees (class_library l) (class_attrs l).

(** The body of a library function that reads names of the library: once
    one of them is rebound, what the call does is not modelled. *)
Definition library_body {A} (what : string) (body : M logging call A)
    : M logging call A :=
  let! l := get in
  if intact l then body else raise (Unmodelled what).

(** Names beginning with two underscores include the ones Python's
    attribute protocol treats specially ([hasattr] finds [__class__] or
    [__dict__] outside the namespace, [setattr] refuses some of them and
    gives others a meaning to the interpreter), and on a name with a
    character outside ASCII [str.lower] is more than [lower] below:
    [hasattr] and [setattr] on such names are not modelled. *)
Fixpoint has_non_ascii (s : string) : bool :=
  match s with
  | EmptyString => false
  | String c rest =>
      (128 <=? Ascii.nat_of_ascii c)%nat || has_non_ascii rest
  end.

Definition special (name : string) : bool :=
  String.prefix "__" name || has_non_ascii name.

Definition hasattr (attrs : gmap string binding) (name : string) : bool :=
  bool_decide (is_Some (attrs !! name)).

(** [hasattr(logging, name)] and [setattr(logging, name, value)]. *)
Definition hasattr_logging (name : string) : M logging call bool :=
  if special name then raise (Unmodelled "hasattr")
  else let! l := get in ret (hasattr (module_attrs l) name).

Definition setattr_logging (name : string) (b : binding)
    : M logging call unit :=
  if special name then raise (Unmodelled "setattr")
  else modify (setattr_module name b).

(** [hasattr(cls, name)] and [setattr(cls, name, value)] on the object
    [cls] that [logging.getLoggerClass()] returned: the logger class, or
    whatever else [_loggerClass] has come to be bound to.  An integer takes
    no attribute; which names it has is not modelled, nor are the
    attributes of a function. *)
Definition hasattr_of (cls : binding) (name : string) : M logging call bool :=
  if special name then raise (Unmodelled "hasattr")
  else match cls with
       | Library => let! l := get in ret (hasattr (class_attrs l) name)
       | _ => raise (Unmodelled "hasattr")
       end.

Definition setattr_of (cls : binding) (name : string) (b : binding)
    : M logging call unit :=
  if special name then raise (Unmodelled "setattr")
  else match cls with
       | Library => modify (setattr_class name b)
       | Level _ => raise (AttributeError name)
       | _ => raise (Unmodelled "setattr")
       end.

(** [logging.log(levelNum, msg)].  A [logToRoot] closure bound to [log]
    calls [logging.log] again, which is itself. *)
Definition call_log (levelNum : Z) (msg : message) : M logging call unit :=
  let! l := get in
  match module_attrs l !! "log" with
  | None => raise (AttributeError "log")
  | Some Library => library_body "logging.log" (emit (Log levelNum msg))
  | Some (Level _) => raise not_callable
  | Some (logToRoot _) => raise RecursionError
  | Some (logForLevel _) => raise (AttributeError "isEnabledFor")
  end.

(** [logging.warn(msg)]. *)
Definition call_warn (msg : string) : M logging call unit :=
  let! l := get in
  match module_attrs l !! "warn" with
  | None => raise (AttributeError "warn")
  | Some Library => library_body "logging.warn" (emit (Warn msg))
  | Some (Level _) => raise not_callable
  | Some (logToRoot levelNum) => call_log levelNum (Text msg)
  | Some (logForLevel _) => raise bad_arguments
  end.

(** [logging.getLoggerClass()].  The library's function is
    [return _loggerClass]: it reads that one global of the module and
    returns what it is bound to. *)
Definition call_getLoggerClass : M logging call binding :=
  let! l := get in
  match module_attrs l !! "getLoggerClass" with
  | None => raise (AttributeError "getLoggerClass")
  | Some Library =>
      match module_attrs l !! "_loggerClass" with
      | None => raise (NameError "_loggerClass")
      | Some cls => ret cls
      end
  | Some (Level _) => raise not_callable
  | Some (logToRoot _) => raise bad_arguments
  | Some (logForLevel _) => raise bad_arguments
  end.

(** [logging.addLevelName(levelNum, levelName)]. *)
Definition call_addLevelName (levelNum : Z) (levelName : string)
    : M logging call unit :=
  let! l := get in
  match module_attrs l !! "addLevelName" with
  | None => raise (AttributeError "addLevelName")
  | Some Library =>
      library_body "logging.addLevelName"
        (modify (register_level levelNum levelName))
  | Some (Level _) => raise not_callable
  | Some (logToRoot n) => call_log n (Number levelNum)
  | Some (logForLevel _) => raise (AttributeError "isEnabledFor")
  end.

(** [str.lower] on ASCII names. *)
Definition lower_ascii (c : Ascii.ascii) : Ascii.ascii :=
  let n := Ascii.nat_of_ascii c in
  if ((65 <=? n) && (n <=? 90))%nat then Ascii.ascii_of_nat (n + 32) else c.

Fixpoint lower (s : string) : string :=
  match s with
  | EmptyString => EmptyString
  | String c rest => String (lower_ascii c) (lower rest)
  end.

Definition already_in_module (name : string) : string :=
  name +:+ " already defined in logging module".
Definition already_in_class (name : string) : string :=
  name +:+ " already defined in logger class".

(** Lines 62-63: [if not methodName: methodName = levelName.lower()]. *)
Definition method_name (levelName : string) (methodName : option string)
    : string :=
  match methodName with
  | Some name => if truthy_str name then name else lower levelName
  | None => lower levelName
  end.

Definition addLoggingLevel (levelName : string) (levelNum : Z)
    (methodName : option string) : M logging call unit :=
  let methodName := method_name levelName methodName in
  let! taken := hasattr_logging levelName in
  when taken (call_warn (already_in_module levelName)) ;;;
  let! taken := hasattr_logging methodName in
  when taken (call_warn (already_in_module methodName)) ;;;
  let! cls := call_getLoggerClass in
  let! taken := hasattr_of cls methodName in
  when taken (call_warn (already_in_class methodName)) ;;;
  call_addLevelName levelNum levelName ;;;
  setattr_logging levelName (Level levelNum) ;;;
  let! cls := call_getLoggerClass in
  setattr_of cls methodName (logForLevel levelNum) ;;;
  setattr_logging methodName (logToRoot levelNum).

(** The names of the [logging] module and of the [Logger] class as CPython
    3.7 defines them, those beginning with two underscores left out. *)
Definition stock_module : gmap string binding :=
  list_to_map
    ([("CRITICAL", Level 50); ("FATAL", Level 50); ("ERROR", Level 40);
      ("WARNING", Level 30); ("WARN", Level 30); ("INFO", Level 20);
      ("DEBUG", Level 10); ("NOTSET", Level 0)]
     ++ ((λ name, (name, Library))
         <$> ["BASIC_FORMAT"; "BufferingFormatter"; "FileHandler"; "Filter";
              "Filterer"; "Formatter"; "Handler"; "LogRecord"; "Logger";
              "LoggerAdapter"; "Manager"; "NullHandler"; "PercentStyle";
              "PlaceHolder"; "RootLogger"; "StrFormatStyle"; "StreamHandler";
              "StringTemplateStyle"; "Template"; "_STYLES"; "_StderrHandler";
              "_acquireLock"; "_addHandlerRef"; "_checkLevel";
              "_defaultFormatter"; "_defaultLastResort"; "_handlerList";
              "_handlers"; "_levelToName"; "_lock"; "_logRecordFactory";
              "_loggerClass"; "_nameToLevel"; "_releaseLock";
              "_removeHandlerRef"; "_showwarning"; "_srcfile"; "_startTime";
              "_warnings_showwarning"; "addLevelName"; "atexit";
              "basicConfig"; "captureWarnings"; "collections"; "critical";
              "currentframe"; "debug"; "disable"; "error"; "exception";
              "fatal"; "getLevelName"; "getLogRecordFactory"; "getLogger";
              "getLoggerClass"; "info"; "io"; "lastResort"; "log";
              "logMultiprocessing"; "logProcesses"; "logThreads";
              "makeLogRecord"; "os"; "raiseExceptions"; "root";
              "setLogRecordFactory"; "setLoggerClass"; "shutdown"; "sys";
              "threading"; "time"; "traceback"; "warn"; "warning";
              "warnings"; "weakref"])).

Definition stock_class : gmap string binding :=
  list_to_map
    ((λ name, (name, Library))
     <$> ["_log"; "addFilter"; "addHandler"; "callHandlers"; "critical";
          "debug"; "error"; "exception"; "fatal"; "filter"; "findCaller";
          "getChild"; "getEffectiveLevel"; "handle"; "hasHandlers"; "info";
          "isEnabledFor"; "log"; "makeRecord"; "manager"; "removeFilter";
          "removeHandler"; "root"; "setLevel"; "warn"; "warning"]).

Definition stock : logging :=
  {| module_attrs := stock_module;
     class_attrs := stock_class;
     _levelToName :=
       list_to_map
         [(50, "CRITICAL"); (40, "ERROR"); (30, "WARNING"); (20, "INFO");
          (10, "DEBUG"); (0, "NOTSET")];
     _nameToLevel :=
       list_to_map
         [("CRITICAL", 50); ("FATAL", 50); ("ERROR", 40); ("WARN", 30);
          ("WARNING", 30); ("INFO", 20); ("DEBUG", 10); ("NOTSET", 0)];
     module_library := stock_module;
     class_library := stock_class |}.

End Logging.

(** ** [init_logger] (lines 88-126) *)
Module InitLogger.

(** The handler objects the function creates. *)
Inductive handler :=
| StreamHandler                      (* logging.StreamHandler(sys.stdout) *)
| FileHandler (filename : string)    (* logging.FileHandler(filename) *)
| NullHandler.

(** Calls issued on the handlers and on the logger passed in. *)
Inductive call :=
| SetFormatter (h : handler)
| AddHandler (h : handler)
| SetLevel (level : Z).

(** [init_logger(logger, level, stream, outfname)]; the logger is the
    caller's and is returned as it is. *)
Definition init_logger {L : Type} (level : Z) (stream : bool)
    (outfname : string) : M L call L :=
  when stream
    (let stdout_handler := StreamHandler in
     emit (SetFormatter stdout_handler) ;;;
     emit (AddHandler stdout_handler)) ;;;
  when (truthy_str outfname)
    (let fh := FileHandler (outfname +:+ ".log") in
     emit (SetFormatter fh) ;;;
     emit (AddHandler fh)) ;;;
  emit (AddHandler NullHandler) ;;;
  emit (SetLevel level) ;;;
  get.

Definition is_add (c : call) : bool :=
  match c with AddHandler _ => true | _ => false end.

(** The handlers added by a sequence of calls, in order. *)
Definition added (calls : list call) : list handler :=
  omap (λ c, match c with AddHandler h => Some h | _ => None end) calls.

End InitLogger.

(** ** Observing what a call issues *)

(** The calls issued by one run of a method, its final state and its
    outcome. *)
Definition calls_of {S E A} (run : S * list E * result A) : list E :=
  snd (fst run).
Definition state_of {S E A} (run : S * list E * result A) : S :=
  fst (fst run).
Definition outcome_of {S E A} (run : S * list E * result A) : result A :=
  snd run.

(** Every call satisfying [is_write] is directly followed by one
    satisfying [is_flush]. *)
Fixpoint each_followed_by {E} (is_write is_flush : E → bool) (tr : list E)
    : bool :=
  match tr with
  | [] => true
  | e :: rest =>
      (if is_write e
       then match rest with f :: _ => is_flush f | [] => false end
       else true)
      && each_followed_by is_write is_flush rest
  end.

(** How many calls of a trace satisfy [p]. *)
Definition count {E} (p : E → bool) (tr : list E) : nat :=
  length (List.filter p tr).


(** Every call issued by [m] from [s] satisfies [P]. *)
Definition calls_all {S E A} (P : E → Prop) (m : M S E A) (s : S) : Prop :=
  Forall P (calls_of (m s)).

(** [m'] run on the configuration object [s] made to hold the mapping [cfg]
    does what [m] does on [s] itself: the same calls, the same outcome, the
    same attribute assignments. *)
Definition same_up_to_cfg {E A} (cfg : gmap string ReporterConfig.options)
    (s : ReporterConfig.t) (m m' : M ReporterConfig.t E A) : Prop :=
  m' (ReporterConfig.with_cfg cfg s)
  = (ReporterConfig.with_cfg cfg (state_of (m s)), calls_of (m s),
     outcome_of (m s)).

(** The calls that make up one-time initialization, that append a record,
    and that flush, for each class. *)
Definition hdf5_is_init (c : BLUESHDF5Reporter.call) : bool :=
  match c with BLUESHDF5Reporter.Initialize => true | _ => false end.
Definition hdf5_is_write (c : BLUESHDF5Reporter.call) : bool :=
  match c with BLUESHDF5Reporter.Write _ _ => true | _ => false end.
Definition hdf5_is_flush (c : BLUESHDF5Reporter.call) : bool :=
  match c with BLUESHDF5Reporter.Flush => true | _ => false end.

Definition statedata_is_write (c : BLUESStateDataReporter.call) : bool :=
  match c with
  | BLUESStateDataReporter.Info _ | BLUESStateDataReporter.Report _ => true
  | _ => false
  end.
Definition statedata_is_info (c : BLUESStateDataReporter.call) : bool :=
  match c with BLUESStateDataReporter.Info _ => true | _ => false end.
Definition statedata_is_flush (c : BLUESStateDataReporter.call) : bool :=
  match c with BLUESStateDataReporter.Flush => true | _ => false end.


Definition netcdf_is_cell (c : NetCDF4Reporter.call) : bool :=
  match c with NetCDF4Reporter.AddCellLengthsAngles _ => true | _ => false end.
Definition netcdf_is_coordinates (c : NetCDF4Reporter.call) : bool :=
  match c with NetCDF4Reporter.AddCoordinates _ => true | _ => false end.
Definition netcdf_is_velocities (c : NetCDF4Reporter.call) : bool :=
  match c with NetCDF4Reporter.AddVelocities _ => true | _ => false end.
Definition netcdf_is_forces (c : NetCDF4Reporter.call) : bool :=
  match c with NetCDF4Reporter.AddForces _ => true | _ => false end.
Definition netcdf_is_time (c : NetCDF4Reporter.call) : bool :=
  match c with NetCDF4Reporter.AddTime _ => true | _ => false end.







(** One invocation by the driving loop, which hands in its simulation
    object each time. *)
Definition hdf5_report_at (i : Simulation * State)
    : M BLUESHDF5Reporter.t BLUESHDF5Reporter.call unit :=
  BLUESHDF5Reporter.report (fst i) (snd i).

Definition statedata_report_at
    (i : Simulation * State * BLUESStateDataReporter.Clock)
    : M BLUESStateDataReporter.t BLUESStateDataReporter.call unit :=
  λ self,
    let run := BLUESStateDataReporter.report (snd (fst i)) (snd i)
                 (self, fst (fst i)) in
    (fst (state_of run), calls_of run, outcome_of run).


(** The [add_*] calls of one frame, in the order [NetCDF4Reporter.report]
    issues them (lines 847-865). *)
Definition frame_calls (self : NetCDF4Reporter.t) (simulation : Simulation)
    (state : State) (pbc : bool) : list NetCDF4Reporter.call :=
  (if pbc
   then [NetCDF4Reporter.AddCellLengthsAngles (getPeriodicBoxVectors state)]
   else [])
  ++ (if NetCDF4Reporter.crds self
      then [NetCDF4Reporter.AddCoordinates (getPositions state)] else [])
  ++ (if NetCDF4Reporter.vels self
      then [NetCDF4Reporter.AddVelocities (getVelocities state)] else [])
  ++ (if NetCDF4Reporter.frcs self
      then [NetCDF4Reporter.AddForces (getForces state)] else [])
  ++ (if NetCDF4Reporter.protocolWork self
      then [NetCDF4Reporter.AddProtocolWork
              (protocol_work (integrator simulation))]
      else [])
  ++ (if NetCDF4Reporter.alchemicalLambda self
      then [NetCDF4Reporter.AddAlchemicalLambda
              (lambda (integrator simulation))]
      else [])
  ++ [NetCDF4Reporter.AddTime (getTime state)].

(** ** Sample inputs used to run the definitions *)
Module Sample.
Definition zero : float := Float 0 0.
Definition origin : vec3 := (zero, zero, zero).

Definition simulation_at (step : Z) : Simulation :=
  {| currentStep := step;
     currentIter := None;
     integrator := {| lambda := zero; protocol_work := zero |};
     unitCellDimensions := Some origin |}.

(** A two-atom snapshot. *)
Definition state (ok : bool) : State :=
  {| getPositions := [origin; origin];
     getVelocities := [origin; origin];
     getForces := [origin; origin];
     getPotentialEnergy := zero;
     getKineticEnergy := zero;
     getTime := Float 1 0;
     getPeriodicBoxVectors := (origin, origin, origin);
     passesErrorCheck := ok |}.

(** A logger set up by [init_logger]: [info], a custom-level [report], no
    [flush]; its stream and file handlers flush each record. *)
Definition logger : BLUESStateDataReporter.stream :=
  {| BLUESStateDataReporter.info := Some BLUESStateDataReporter.OwnInfo;
     BLUESStateDataReporter.has_report := true;
     BLUESStateDataReporter.has_flush := false;
     BLUESStateDataReporter.autoflush := true |}.


(** An output object with [info] and [flush] and no [report]. *)
Definition sink : BLUESStateDataReporter.stream :=
  {| BLUESStateDataReporter.info := Some BLUESStateDataReporter.OwnInfo;
     BLUESStateDataReporter.has_report := false;
     BLUESStateDataReporter.has_flush := true;
     BLUESStateDataReporter.autoflush := false |}.

(** A file object, as the base class opens it for a file name: [flush],
    neither [info] nor [report]. *)
Definition file : BLUESStateDataReporter.stream :=
  {| BLUESStateDataReporter.info := None;
     BLUESStateDataReporter.has_report := false;
     BLUESStateDataReporter.has_flush := true;
     BLUESStateDataReporter.autoflush := false |}.

Definition clock : BLUESStateDataReporter.Clock :=
  {| BLUESStateDataReporter.at_initialization := Float 10 0;
     BLUESStateDataReporter.at_values := Float 11 0;
     BLUESStateDataReporter.at_elapsedTime := Float 12 0 |}.

Definition hdf5 (reportInterval : Z) (frame_indices : list Z)
    : BLUESHDF5Reporter.t :=
  BLUESHDF5Reporter.__init__ true reportInterval "NCMC Trajectory" true
    frame_indices false true false false false false true true [] true.

Definition statedata (file : BLUESStateDataReporter.stream)
    (reportInterval : Z) (frame_indices : list Z)
    : BLUESStateDataReporter.t :=
  BLUESStateDataReporter.__init__ file reportInterval frame_indices "md"
    true true true false false false false false false false false false
    (String (Ascii.ascii_of_nat 9) "") None false false false.

Definition netcdf (reportInterval : Z) (frame_indices : list Z)
    : NetCDF4Reporter.t :=
  NetCDF4Reporter.__init__ "blues-test.nc" reportInterval frame_indices
    true false false false false.

(** A reporter of step and remaining time only, for which [totalSteps] was
    never given. *)
Definition eta : BLUESStateDataReporter.t :=
  BLUESStateDataReporter.__init__ logger 250 [] "md"
    true false false false false false false false false true false false
    (String (Ascii.ascii_of_nat 9) "") None false false false.

(** A reporter of the iteration and the step. *)
Definition iterated : BLUESStateDataReporter.t :=
  BLUESStateDataReporter.__init__ logger 250 [] "ncmc"
    true false false false false false false false false false false false
    (String (Ascii.ascii_of_nat 9) "") None false false true.

End Sample.

(** * Properties *)

(** ** The cadence decision *)

Lemma shift_frame_indices_nil : shift_frame_indices [] = [].
Proof. reflexivity. Qed.

Lemma shift_frame_indices_cons (l : list Z) :
  l ≠ [] → shift_frame_indices l = (λ x, x - 1) <$> l.
Proof. destruct l; [congruence | reflexivity]. Qed.

Lemma truthy_shift (l : list Z) : truthy (shift_frame_indices l) = truthy l.
Proof. by destruct l. Qed.

Lemma next_steps_periodic (n k : Z) :
  n ≠ 0 → next_steps [] n k = Ok (n - k mod n).
Proof.
  intros Hn. unfold next_steps, py_mod. simpl.
  destruct (decide (n = 0)) as [E|_]; [contradiction | reflexivity].
Qed.

Lemma next_steps_periodic_zero (k : Z) :
  next_steps [] 0 k = Raise ZeroDivisionError.
Proof. reflexivity. Qed.

Lemma next_steps_explicit (l : list Z) (n k : Z) :
  l ≠ [] →
  next_steps l n k = Ok (if bool_decide (k ∈ l) then 1 else -1).
Proof.
  intros Hl. unfold next_steps.
  destruct l as [|x l]; [congruence|]. simpl.
  by destruct (bool_decide (k ∈ x :: l)).
Qed.

Lemma shifted_elem (l : list Z) (k : Z) :
  k ∈ (λ x, x - 1) <$> l ↔ k + 1 ∈ l.
Proof.
  rewrite list_elem_of_fmap. split.
  - intros (x & -> & Hx). by replace (x - 1 + 1) with x by lia.
  - intros H. exists (k + 1). split; [lia | done].
Qed.

(** The steps component of each class's answer is the shared decision. *)
Lemma BLUESHDF5Reporter_steps (r : BLUESHDF5Reporter.t) (sim : Simulation) :
  result_map steps_of (BLUESHDF5Reporter.describeNextReport r sim)
  = next_steps (BLUESHDF5Reporter.frame_indices r)
      (BLUESHDF5Reporter._reportInterval r) (currentStep sim).
Proof.
  unfold BLUESHDF5Reporter.describeNextReport.
  by destruct (next_steps _ _ _).
Qed.

Lemma BLUESStateDataReporter_steps (r : BLUESStateDataReporter.t)
    (sim : Simulation) :
  result_map steps_of (BLUESStateDataReporter.describeNextReport r sim)
  = next_steps (BLUESStateDataReporter.frame_indices r)
      (BLUESStateDataReporter._reportInterval r) (currentStep sim).
Proof.
  unfold BLUESStateDataReporter.describeNextReport.
  by destruct (next_steps _ _ _).
Qed.

Lemma NetCDF4Reporter_steps (r : NetCDF4Reporter.t) (sim : Simulation) :
  result_map steps_of (NetCDF4Reporter.describeNextReport r sim)
  = next_steps (NetCDF4Reporter.frame_indices r)
      (NetCDF4Reporter._reportInterval r) (currentStep sim).
Proof.
  unfold NetCDF4Reporter.describeNextReport.
  by destruct (next_steps _ _ _).
Qed.

(** C1. A reporter of any of the three classes constructed with
    [reportInterval = n >= 1] and an empty [frame_indices] list answers
    [describeNextReport] at current step [k] with [n - (k mod n)] as the
    steps-until-next-report component. *)
Theorem C1_periodic_cadence (n : Z) (simulation : Simulation) :
  1 ≤ n →
  let k := currentStep simulation in
  (∀ has_flush title coordinates time cell temperature potentialEnergy
     kineticEnergy velocities protocolWork alchemicalLambda parameters
     environment,
     result_map steps_of
       (BLUESHDF5Reporter.describeNextReport
          (BLUESHDF5Reporter.__init__ has_flush n title coordinates [] time
             cell temperature potentialEnergy kineticEnergy velocities
             protocolWork alchemicalLambda parameters environment)
          simulation) = Ok (n - k mod n)) ∧
  (∀ file title step time potentialEnergy kineticEnergy totalEnergy
     temperature volume density progress remainingTime speed elapsedTime
     separator totalSteps protocolWork alchemicalLambda currentIter,
     result_map steps_of
       (BLUESStateDataReporter.describeNextReport
          (BLUESStateDataReporter.__init__ file n [] title step time
             potentialEnergy kineticEnergy totalEnergy temperature volume
             density progress remainingTime speed elapsedTime separator
             totalSteps protocolWork alchemicalLambda currentIter)
          simulation) = Ok (n - k mod n)) ∧
  (∀ file crds vels frcs protocolWork alchemicalLambda,
     result_map steps_of
       (NetCDF4Reporter.describeNextReport
          (NetCDF4Reporter.__init__ file n [] crds vels frcs protocolWork
             alchemicalLambda)
          simulation) = Ok (n - k mod n)).
Proof.
  intros Hn k.
  assert (Hne : n ≠ 0) by lia.
  repeat split; intros;
    unfold BLUESHDF5Reporter.describeNextReport,
      BLUESStateDataReporter.describeNextReport,
      NetCDF4Reporter.describeNextReport; simpl;
    rewrite (next_steps_periodic n _ Hne); reflexivity.
Qed.

Lemma C1_periodic_cadence_witness :
  1 ≤ 3 ∧
  result_map steps_of
    (NetCDF4Reporter.describeNextReport (Sample.netcdf 3 [])
       (Sample.simulation_at 7)) = Ok 2.
Proof.
  split; [lia|].
  apply (proj2 (proj2 (C1_periodic_cadence 3 (Sample.simulation_at 7)
                         ltac:(lia)))).
Defined.

(** C2. A reporter constructed with a non-empty explicit frame list stores
    each index decremented by one, and [describeNextReport] returns 1 as
    the steps component exactly when the current step is in the stored
    list and -1 otherwise, whatever the report interval is. *)
Theorem C2_explicit_frames (l : list Z) (n : Z) (simulation : Simulation) :
  l ≠ [] →
  let k := currentStep simulation in
  let stored := (λ x, x - 1) <$> l in
  let answer := Ok (if bool_decide (k ∈ stored) then 1 else -1) in
  (∀ has_flush title coordinates time cell temperature potentialEnergy
     kineticEnergy velocities protocolWork alchemicalLambda parameters
     environment,
     let r := BLUESHDF5Reporter.__init__ has_flush n title coordinates l time
                cell temperature potentialEnergy kineticEnergy velocities
                protocolWork alchemicalLambda parameters environment in
     BLUESHDF5Reporter.frame_indices r = stored ∧
     result_map steps_of (BLUESHDF5Reporter.describeNextReport r simulation)
     = answer) ∧
  (∀ file title step time potentialEnergy kineticEnergy totalEnergy
     temperature volume density progress remainingTime speed elapsedTime
     separator totalSteps protocolWork alchemicalLambda currentIter,
     let r := BLUESStateDataReporter.__init__ file n l title step time
                potentialEnergy kineticEnergy totalEnergy temperature volume
                density progress remainingTime speed elapsedTime separator
                totalSteps protocolWork alchemicalLambda currentIter in
     BLUESStateDataReporter.frame_indices r = stored ∧
     result_map steps_of
       (BLUESStateDataReporter.describeNextReport r simulation) = answer) ∧
  (∀ file crds vels frcs protocolWork alchemicalLambda,
     let r := NetCDF4Reporter.__init__ file n l crds vels frcs protocolWork
                alchemicalLambda in
     NetCDF4Reporter.frame_indices r = stored ∧
     result_map steps_of (NetCDF4Reporter.describeNextReport r simulation)
     = answer).
Proof.
  intros Hl k stored answer.
  assert (Hs : shift_frame_indices l = stored)
    by exact (shift_frame_indices_cons l Hl).
  assert (Hne : stored ≠ []) by (subst stored; by destruct l).
  repeat split; intros;
    unfold BLUESHDF5Reporter.describeNextReport,
      BLUESStateDataReporter.describeNextReport,
      NetCDF4Reporter.describeNextReport; simpl;
    rewrite ?Hs; try reflexivity;
    rewrite (next_steps_explicit stored n _ Hne); reflexivity.
Qed.

Lemma C2_explicit_frames_witness :
  [1; 100] ≠ [] ∧
  BLUESHDF5Reporter.frame_indices (Sample.hdf5 250 [1; 100]) = [0; 99] ∧
  result_map steps_of
    (BLUESHDF5Reporter.describeNextReport (Sample.hdf5 250 [1; 100])
       (Sample.simulation_at 99)) = Ok 1.
Proof.
  split; [discriminate|].
  apply (proj1 (C2_explicit_frames [1; 100] 250 (Sample.simulation_at 99)
                  ltac:(discriminate))).
Defined.

Example explicit_frames_step_0 :
  result_map steps_of
    (NetCDF4Reporter.describeNextReport (Sample.netcdf 250 [1; 100])
       (Sample.simulation_at 0)) = Ok 1.
Proof. reflexivity. Qed.

Example explicit_frames_step_50 :
  result_map steps_of
    (NetCDF4Reporter.describeNextReport (Sample.netcdf 250 [1; 100])
       (Sample.simulation_at 50)) = Ok (-1).
Proof. reflexivity. Qed.

Example explicit_frames_step_100 :
  result_map steps_of
    (BLUESStateDataReporter.describeNextReport
       (Sample.statedata Sample.logger 250 [1; 100])
       (Sample.simulation_at 100)) = Ok (-1).
Proof. reflexivity. Qed.

Example zero_interval_raises :
  NetCDF4Reporter.describeNextReport (Sample.netcdf 0 [])
    (Sample.simulation_at 5) = Raise ZeroDivisionError.
Proof. reflexivity. Qed.

Lemma next_steps_shifted (l : list Z) (n k : Z) :
  l ≠ [] →
  next_steps (shift_frame_indices l) n k = Ok 1 ↔ k + 1 ∈ l.
Proof.
  intros Hl. rewrite (shift_frame_indices_cons l Hl).
  rewrite next_steps_explicit by (by destruct l).
  rewrite <- shifted_elem.
  destruct (bool_decide_reflect (k ∈ (λ x, x - 1) <$> l)) as [H|H].
  - tauto.
  - split; [discriminate | tauto].
Qed.

Lemma zero_stored_as_minus_one (l : list Z) :
  0 ∈ l → -1 ∈ shift_frame_indices l.
Proof.
  intros H0. rewrite shift_frame_indices_cons.
  - apply shifted_elem. exact H0.
  - intros ->. by apply not_elem_of_nil in H0.
Qed.

Lemma next_steps_zero_index (l : list Z) (n k : Z) :
  0 ∈ l → 0 ≤ k →
  next_steps (shift_frame_indices l) n k = Ok 1
  ↔ ∃ x, x ∈ l ∧ 0 < x ∧ k = x - 1.
Proof.
  intros H0 Hk.
  assert (Hl : l ≠ []) by (intros ->; by apply not_elem_of_nil in H0).
  rewrite (next_steps_shifted l n k Hl). split.
  - intros Hin. exists (k + 1). repeat split; [done | lia | lia].
  - intros (x & Hx & _ & ->). by replace (x - 1 + 1) with x by lia.
Qed.

(** C10. When the [frame_indices] list given to a constructor contains the
    index 0, that index is stored as -1; at every non-negative current step
    [describeNextReport] answers 1 only on account of a positive index of
    the list, so the index 0 never triggers a report. *)
Theorem C10_zero_index_never_reports (l : list Z) (n : Z)
    (simulation : Simulation) :
  0 ∈ l →
  0 ≤ currentStep simulation →
  let k := currentStep simulation in
  let triggered := ∃ x, x ∈ l ∧ 0 < x ∧ k = x - 1 in
  (∀ has_flush title coordinates time cell temperature potentialEnergy
     kineticEnergy velocities protocolWork alchemicalLambda parameters
     environment,
     let r := BLUESHDF5Reporter.__init__ has_flush n title coordinates l time
                cell temperature potentialEnergy kineticEnergy velocities
                protocolWork alchemicalLambda parameters environment in
     -1 ∈ BLUESHDF5Reporter.frame_indices r ∧
     (result_map steps_of (BLUESHDF5Reporter.describeNextReport r simulation)
      = Ok 1 ↔ triggered)) ∧
  (∀ file title step time potentialEnergy kineticEnergy totalEnergy
     temperature volume density progress remainingTime speed elapsedTime
     separator totalSteps protocolWork alchemicalLambda currentIter,
     let r := BLUESStateDataReporter.__init__ file n l title step time
                potentialEnergy kineticEnergy totalEnergy temperature volume
                density progress remainingTime speed elapsedTime separator
                totalSteps protocolWork alchemicalLambda currentIter in
     -1 ∈ BLUESStateDataReporter.frame_indices r ∧
     (result_map steps_of
        (BLUESStateDataReporter.describeNextReport r simulation)
      = Ok 1 ↔ triggered)) ∧
  (∀ file crds vels frcs protocolWork alchemicalLambda,
     let r := NetCDF4Reporter.__init__ file n l crds vels frcs protocolWork
                alchemicalLambda in
     -1 ∈ NetCDF4Reporter.frame_indices r ∧
     (result_map steps_of (NetCDF4Reporter.describeNextReport r simulation)
      = Ok 1 ↔ triggered)).
Proof.
  intros H0 Hk k triggered.
  pose proof (zero_stored_as_minus_one l H0) as Hm.
  pose proof (next_steps_zero_index l n k H0 Hk) as Hn.
  repeat split; intros; try exact Hm.
  all: rewrite ?BLUESHDF5Reporter_steps, ?BLUESStateDataReporter_steps,
         ?NetCDF4Reporter_steps in *; simpl in *; by apply Hn.
Qed.

Lemma C10_zero_index_never_reports_witness :
  0 ∈ [0; 5] ∧ 0 ≤ 4 ∧
  -1 ∈ NetCDF4Reporter.frame_indices (Sample.netcdf 10 [0; 5]) ∧
  (result_map steps_of
     (NetCDF4Reporter.describeNextReport (Sample.netcdf 10 [0; 5])
        (Sample.simulation_at 4)) = Ok 1
   ↔ ∃ x, x ∈ [0; 5] ∧ 0 < x ∧ 4 = x - 1).
Proof.
  assert (H0 : (0 : Z) ∈ [0; 5]) by (apply list_elem_of_here).
  assert (Hk : 0 ≤ currentStep (Sample.simulation_at 4)) by (simpl; lia).
  split; [exact H0|]. split; [lia|].
  apply (proj2 (proj2 (C10_zero_index_never_reports [0; 5] 10
                         (Sample.simulation_at 4) H0 Hk))).
Defined.

Example only_zero_index_never_reports (k : Z) :
  0 ≤ k →
  result_map steps_of
    (NetCDF4Reporter.describeNextReport (Sample.netcdf 10 [0])
       (Sample.simulation_at k)) = Ok (-1).
Proof.
  intros Hk. rewrite NetCDF4Reporter_steps.
  change (next_steps [-1] 10 k = Ok (-1)).
  rewrite (next_steps_explicit [-1] 10 k) by discriminate.
  rewrite bool_decide_eq_false_2; [done|].
  rewrite list_elem_of_singleton. lia.
Qed.

(** ** The mode guard *)

(** C7. [_check_mode m modes] raises [ValueError] exactly when [m] is not a
    member of [modes], and returns normally, with nothing else done, when
    it is. *)
Theorem C7_check_mode (m : string) (modes : list string) :
  (_check_mode m modes = Raise (ValueError (check_mode_message m))
   ↔ m ∉ modes) ∧
  (_check_mode m modes = Ok tt ↔ m ∈ modes).
Proof.
  unfold _check_mode.
  destruct (bool_decide_reflect (m ∈ modes)) as [H|H];
    split; split; intros; try done.
Qed.

Example check_mode_write_in_read_only :
  is_ok (_check_mode "w" ["r"]) = false ∧ _check_mode "r" ["r"; "w"] = Ok tt.
Proof. split; reflexivity. Qed.

(** ** Header and value columns of the state-data reporter *)

Lemma append_if_app {A} (b : bool) (l : list A) (x : A) :
  append_if b l x = l ++ (if b then [x] else []).
Proof. destruct b; simpl; [done | by rewrite app_nil_r]. Qed.





(** Inversion of a successful sequence. *)
Lemma bind_Ok_inv {S E A B} (m : M S E A) (k : A → M S E B)
    (s s' : S) (tr : list E) (b : B) :
  bind m k s = (s', tr, Ok b) →
  ∃ s1 t1 a t2,
    m s = (s1, t1, Ok a) ∧ k a s1 = (s', t2, Ok b) ∧ tr = t1 ++ t2.
Proof.
  unfold bind. destruct (m s) as [[s1 t1] [a|e]]; [|discriminate].
  destruct (k a s1) as [[s2 t2] r] eqn:Hk. intros [= -> <- ->].
  by exists s1, t1, a, t2.
Qed.

Lemma lift_Ok_inv {S E A} (r : result A) (s s' : S) (tr : list E) (a : A) :
  lift r s = (s', tr, Ok a) → r = Ok a ∧ s' = s ∧ tr = [].
Proof. unfold lift. by intros [= -> -> ->]. Qed.

Lemma ret_Ok_inv {S E A} (x : A) (s s' : S) (tr : list E) (a : A) :
  ret x s = (s', tr, Ok a) → a = x ∧ s' = s ∧ tr = [].
Proof. unfold ret. by intros [= -> -> ->]. Qed.

Section value_columns.
Import BLUESStateDataReporter.



End value_columns.

Section value_defined.
Import BLUESStateDataReporter.

End value_defined.

#[local] Instance column_header_inj :
  Inj (=) (=) BLUESStateDataReporter.column_header.
Proof. intros c1 c2 H. destruct c1, c2; (reflexivity || discriminate H). Qed.



(** ** The write-on-report protocol *)

Section hdf5_report.
Import BLUESHDF5Reporter.

(** What one call of [report] does, in full. *)
Lemma hdf5_report_run (self : t) (simulation : Simulation) (state : State) :
  report simulation state self
  = (if _is_intialized self then self else set_initialized self,
     (if _is_intialized self then [] else [Initialize])
     ++ CheckForErrors
        :: (if passesErrorCheck state
            then Write (_coordinates self) (write_kwargs self)
                 :: (if traj_file_has_flush self then [Flush] else [])
            else []),
     if passesErrorCheck state then Ok tt
     else Raise (ValueError "Energy is NaN")).
Proof.
  unfold report, _checkForErrors, bind, get, when, emit, modify, ret, raise.
  destruct self as [? ? ? ? ? ? ? ? ? init flush ? ? ? ? ? ?]; simpl.
  destruct init, (passesErrorCheck state), flush; reflexivity.
Qed.

Lemma hdf5_report_flushes (self : t) (simulation : Simulation)
    (state : State) :
  let calls := calls_of (report simulation state self) in
  count hdf5_is_write calls
  = (if passesErrorCheck state then 1 else 0)%nat ∧
  if traj_file_has_flush self
  then each_followed_by hdf5_is_write hdf5_is_flush calls = true
  else count hdf5_is_flush calls = 0%nat.
Proof.
  rewrite hdf5_report_run. unfold calls_of. simpl.
  by destruct (_is_intialized self), (passesErrorCheck state),
    (traj_file_has_flush self).
Qed.



Lemma hdf5_report_later (self : t) (i : Simulation * State) :
  _is_intialized self = true →
  count hdf5_is_init (calls_of (hdf5_report_at i self)) = 0%nat ∧
  _is_intialized (state_of (hdf5_report_at i self)) = true.
Proof.
  intros Hi. unfold hdf5_report_at. rewrite hdf5_report_run.
  unfold calls_of, state_of. simpl. rewrite Hi.
  by destruct (passesErrorCheck i.2), (traj_file_has_flush self).
Qed.
End hdf5_report.

Section netcdf_report.
Import NetCDF4Reporter.

Lemma netcdf_report_opened (self : t) (traj : NetCDF4Traj)
    (simulation : Simulation) (state : State) :
  _out self = Some traj →
  report simulation state self
  = (self, frame_calls self simulation state (uses_pbc self), Ok tt).
Proof.
  unfold report, frame_calls, bind, get, when, emit, modify, ret, raise.
  destruct self as [? ? out pbc c v f w a ?]; simpl. intros ->. simpl.
  destruct pbc, c, v, f, w, a; reflexivity.
Qed.

Lemma netcdf_report_first (self : t) (simulation : Simulation)
    (state : State) (atom : nat) :
  _out self = None →
  atom_count self state = Ok atom →
  let pbc := bool_decide (unitCellDimensions simulation ≠ None) in
  let traj := {| nc_fname := fname self;
                 nc_atom := atom;
                 nc_uses_pbc := pbc;
                 nc_crds := crds self;
                 nc_vels := vels self;
                 nc_frcs := frcs self;
                 nc_protocolWork := protocolWork self;
                 nc_alchemicalLambda := alchemicalLambda self |} in
  report simulation state self
  = (set_out traj (set_uses_pbc pbc self),
     OpenNew traj :: frame_calls self simulation state pbc, Ok tt).
Proof.
  unfold report, open_trajectory, atom_count, frame_calls, bind, get, when,
    emit, modify, ret, raise, lift.
  destruct self as [? ? out pbc c v f w a ?]; simpl. intros -> Ha. simpl.
  destruct (bool_decide (unitCellDimensions simulation ≠ None)),
    c, v, f, w, a; simplify_eq/=; reflexivity.
Qed.

(** With none of the three arrays requested the local [atom] is never
    bound: the call raises before the trajectory is opened. *)
Lemma netcdf_report_unbound (self : t) (simulation : Simulation)
    (state : State) :
  _out self = None →
  crds self || vels self || frcs self = false →
  report simulation state self
  = (set_uses_pbc (bool_decide (unitCellDimensions simulation ≠ None)) self,
     [], Raise (UnboundLocalError "atom")).
Proof.
  unfold report, open_trajectory, atom_count, frame_calls, bind, get, when,
    emit, modify, ret, raise, lift.
  destruct self as [? ? out pbc c v f w a ?]; simpl. intros -> Ha.
  destruct c, v, f; try discriminate; reflexivity.
Qed.

Lemma atom_count_bound (self : t) (state : State) :
  crds self || vels self || frcs self = true →
  ∃ atom, atom_count self state = Ok atom.
Proof.
  unfold atom_count. destruct (crds self), (vels self), (frcs self);
    try discriminate; eauto.
Qed.





End netcdf_report.

Section statedata_report.
Import BLUESStateDataReporter.

Lemma constructReportValues_calls (self : t) (state : State) (clock : Clock)
    (sim : Simulation) :
  calls_of (_constructReportValues self state clock sim) = [].
Proof.
  unfold calls_of, _constructReportValues. cbv zeta.
  unfold bind, get, ret, lift, when, modify, progress_value,
    remaining_value, getattr.
  destruct sim as [k [i|] integ cell].
  all: destruct (_currentIter self), (_progress self), (_speed self),
    (_elapsedTime self), (_remainingTime self),
    (_initialClockTime self), (_initialSimulationTime self),
    (_initialSteps self) as [s0|], (_totalSteps self) as [n|]; simpl;
    repeat case_decide; simpl; reflexivity.
Qed.

#[local] Opaque _constructReportValues _constructHeaders.

Ltac run_report :=
  unfold statedata_report_at, calls_of, state_of, outcome_of,
    report, rebind_info, log_info, out_flush, _checkForErrors,
    except_AttributeError_pass, on_self, on_simulation,
    bind, get, when, emit, modify, ret, raise, lift;
  simpl.

Ltac values_run :=
  repeat match goal with
  | |- context [_constructReportValues ?a ?b ?c ?d] =>
      let H := fresh "Hcalls" in
      pose proof (constructReportValues_calls a b c d) as H;
      unfold calls_of in H;
      destruct (_constructReportValues a b c d) as [[? ?] [?|?]];
      simpl in H; subst; simpl
  end.

Ltac by_cases self state :=
  destruct self as [[inf rep fl af] ? ? ? ? ? ? ? ? ? ? ? ? ? ? ?
                    init ? ? ? ? ? ? ? ? ? ? ? ?];
  run_report;
  destruct init, inf as [[|]|], rep, fl, (passesErrorCheck state); simpl;
  values_run.

Lemma statedata_report_flushes (self : t) (simulation : Simulation)
    (state : State) (clock : Clock) :
  let calls := calls_of (report state clock (self, simulation)) in
  if has_flush (_out self)
  then each_followed_by statedata_is_write statedata_is_flush calls = true
  else count statedata_is_flush calls = 0%nat.
Proof. by_cases self state; reflexivity. Qed.





(** An output object with neither [info] nor [report] (a plain file):
    the header cannot be written, the call raises, and the flag stays
    unset. *)
Lemma statedata_report_no_info (self : t)
    (i : Simulation * State * Clock) :
  _hasInitialized self = false →
  info (_out self) = None → has_report (_out self) = false →
  outcome_of (statedata_report_at i self) = Raise (AttributeError "info") ∧
  _hasInitialized (state_of (statedata_report_at i self)) = false.
Proof.
  destruct i as [[simulation state] clock].
  by_cases self state; intros; simplify_eq/=; done.
Qed.

#[local] Transparent _constructReportValues _constructHeaders.
End statedata_report.






Example sink_report_calls :
  calls_of (BLUESStateDataReporter.report (Sample.state true) Sample.clock
              (Sample.statedata Sample.sink 1 [], Sample.simulation_at 1))
  = [BLUESStateDataReporter.InitializeConstants;
     BLUESStateDataReporter.Info
       (BLUESStateDataReporter.HeaderLine (String (Ascii.ascii_of_nat 9) "")
          ["Step"; "Time (ps)"; "Potential Energy (kJ/mole)"]);
     BLUESStateDataReporter.Flush;
     BLUESStateDataReporter.CheckForErrors;
     BLUESStateDataReporter.Info
       (BLUESStateDataReporter.ValueLine "md"
          (String (Ascii.ascii_of_nat 9) "")
          [BLUESStateDataReporter.VStep 1;
           BLUESStateDataReporter.VTime (Float 1 0);
           BLUESStateDataReporter.VPotentialEnergy Sample.zero]);
     BLUESStateDataReporter.Flush].
Proof. reflexivity. Qed.

Example netcdf_report_calls :
  calls_of (NetCDF4Reporter.report (Sample.simulation_at 1)
              (Sample.state true) (Sample.netcdf 1 []))
  = [NetCDF4Reporter.OpenNew
       {| NetCDF4Reporter.nc_fname := "blues-test.nc";
          NetCDF4Reporter.nc_atom := 2;
          NetCDF4Reporter.nc_uses_pbc := true;
          NetCDF4Reporter.nc_crds := true;
          NetCDF4Reporter.nc_vels := false;
          NetCDF4Reporter.nc_frcs := false;
          NetCDF4Reporter.nc_protocolWork := false;
          NetCDF4Reporter.nc_alchemicalLambda := false |};
     NetCDF4Reporter.AddCellLengthsAngles
       (Sample.origin, Sample.origin, Sample.origin);
     NetCDF4Reporter.AddCoordinates [Sample.origin; Sample.origin];
     NetCDF4Reporter.AddTime (Float 1 0)].
Proof. reflexivity. Qed.


Example logger_report_calls :
  calls_of (BLUESStateDataReporter.report (Sample.state true) Sample.clock
              (Sample.statedata Sample.logger 1 [], Sample.simulation_at 1))
  = [BLUESStateDataReporter.InitializeConstants;
     BLUESStateDataReporter.Report
       (BLUESStateDataReporter.HeaderLine (String (Ascii.ascii_of_nat 9) "")
          ["Step"; "Time (ps)"; "Potential Energy (kJ/mole)"]);
     BLUESStateDataReporter.CheckForErrors;
     BLUESStateDataReporter.Report
       (BLUESStateDataReporter.ValueLine "md"
          (String (Ascii.ascii_of_nat 9) "")
          [BLUESStateDataReporter.VStep 1;
           BLUESStateDataReporter.VTime (Float 1 0);
           BLUESStateDataReporter.VPotentialEnergy Sample.zero])].
Proof. reflexivity. Qed.





(** ** The reporter factory *)

Section factory.
Import ReporterConfig.
Context {reporter : Type}.
Variable construct : constructor → options → result reporter.

Section same.
Context {E : Type} (cfg : gmap string options).

Lemma same_bind {A B} (s : t) (m m' : M t E A) (k k' : A → M t E B) :
  same_up_to_cfg cfg s m m' →
  (∀ a s1, same_up_to_cfg cfg s1 (k a) (k' a)) →
  same_up_to_cfg cfg s (bind m k) (bind m' k').
Proof.
  unfold same_up_to_cfg, bind, state_of, calls_of, outcome_of.
  intros -> Hk. destruct (m s) as [[s1 t1] [a|e]]; simpl; [|done].
  rewrite Hk. by destruct (k a s1) as [[s2 t2] r].
Qed.

Lemma same_get_bind {B} (s : t) (k k' : t → M t E B) :
  same_up_to_cfg cfg s (k s) (k' (with_cfg cfg s)) →
  same_up_to_cfg cfg s (bind get k) (bind get k').
Proof.
  unfold same_up_to_cfg, bind, get, state_of, calls_of, outcome_of.
  simpl. intros ->. by destruct (k s s) as [[s2 t2] r].
Qed.

Lemma same_pure {A} (s : t) (tr : list E) (r : result A) :
  same_up_to_cfg cfg s (λ s, (s, tr, r)) (λ s, (s, tr, r)).
Proof. reflexivity. Qed.

Lemma same_set_trajectory_interval (s : t) (v : pyval) :
  same_up_to_cfg (E := E) cfg s (modify (set_trajectory_interval v))
    (modify (set_trajectory_interval v)).
Proof. reflexivity. Qed.

Lemma same_set_logger (s : t) (l : Logger) :
  same_up_to_cfg (E := E) cfg s (modify (set_logger l))
    (modify (set_logger l)).
Proof. reflexivity. Qed.
End same.

Ltac same_step :=
  first
    [ apply same_get_bind; simpl
    | apply same_bind; [|intros ? ?]
    | apply same_set_trajectory_interval
    | apply same_set_logger
    | apply (same_pure _ _ [] _)
    | apply (same_pure _ _ [_] _)
    | match goal with
      | |- same_up_to_cfg _ _ (match ?x with _ => _ end)
             (match ?x with _ => _ end) => destruct x
      | |- same_up_to_cfg _ _ (when ?b _) (when ?b _) =>
          destruct b; unfold when
      end ].

(** A key outside the five recognized ones leaves the whole run as it
    is. *)
Lemma makeReporters_unrecognized (self : t) (k : string) (opts : options) :
  k ∉ recognized →
  same_up_to_cfg (<[k := opts]> (_cfg self)) self
    (makeReporters construct) (makeReporters construct).
Proof.
  intros Hk.
  assert (∀ k', k' ∈ recognized → <[k := opts]> (_cfg self) !! k'
                                  = _cfg self !! k') as Hl.
  { intros k' Hk'. apply lookup_insert_ne. by intros ->. }
  unfold makeReporters, new, choose_outfname.
  apply same_get_bind. simpl.
  rewrite !Hl by (unfold recognized; set_solver).
  repeat same_step.
Qed.

Lemma calls_all_bind {S E A B} (P : E → Prop) (m : M S E A)
    (k : A → M S E B) (s : S) :
  calls_all P m s → (∀ a s1, calls_all P (k a) s1) →
  calls_all P (bind m k) s.
Proof.
  unfold calls_all, calls_of, bind. intros Hm Hk.
  destruct (m s) as [[s1 t1] [a|e]]; simpl in *; [|done].
  specialize (Hk a s1). destruct (k a s1) as [[s2 t2] r]; simpl in *.
  by apply Forall_app.
Qed.

Lemma calls_all_get_bind {S E B} (P : E → Prop) (k : S → M S E B) (s : S) :
  calls_all P (k s) s → calls_all P (bind get k) s.
Proof.
  unfold calls_all, calls_of, bind, get. simpl.
  by destruct (k s s) as [[s2 t2] r].
Qed.

Lemma calls_all_nil {S E A} (P : E → Prop) (f : S → S) (r : result A)
    (s : S) :
  calls_all P (λ s, (f s, [], r)) s.
Proof. constructor. Qed.

Lemma calls_all_emit {S E} (P : E → Prop) (e : E) (s : S) :
  P e → calls_all P (emit e) s.
Proof. intros He. by repeat constructor. Qed.

Ltac calls_step :=
  first
    [ apply calls_all_bind; [|intros ? ?]
    | apply calls_all_emit; simpl; split; [set_solver | done]
    | apply (calls_all_nil _ id)
    | apply calls_all_nil
    | match goal with
      | |- calls_all _ (match ?x with _ => _ end) _ =>
          let E := fresh "E" in destruct x eqn:E
      | |- calls_all _ (when ?b _) _ => destruct b; unfold when
      end ].

(** Every constructor call issued is for a recognized key of the mapping,
    with that key's options. *)
Lemma makeReporters_calls (self : t) :
  calls_all (λ c, kind_of c.1 ∈ recognized
                  ∧ _cfg self !! kind_of c.1 = Some c.2)
    (makeReporters construct) self.
Proof.
  unfold makeReporters, new, recognized.
  apply calls_all_get_bind. repeat calls_step.
Qed.

Lemma makeReporters_nothing_recognized (self : t) :
  (∀ k, k ∈ recognized → _cfg self !! k = None) →
  makeReporters construct self = (self, [], Ok []).
Proof.
  intros Hn. unfold makeReporters, bind, get. simpl.
  rewrite !Hn by (unfold recognized; set_solver). reflexivity.
Qed.
End factory.




(** C6. [makeReporters] issues constructor calls for the keys [state],
    [traj_netcdf], [restart], [progress] and [stream] only; a top-level key
    outside these five changes neither the calls, nor the returned list,
    nor the outcome; a mapping with none of the five yields the empty list
    and no error. *)
Theorem C6_unknown_keys_ignored {reporter : Type}
    (construct : ReporterConfig.constructor → ReporterConfig.options
                 → result reporter)
    (self : ReporterConfig.t) :
  calls_all (λ c, ReporterConfig.kind_of c.1 ∈ ReporterConfig.recognized
                  ∧ ReporterConfig._cfg self !! ReporterConfig.kind_of c.1
                    = Some c.2)
    (ReporterConfig.makeReporters construct) self ∧
  (∀ k opts,
     k ∉ ReporterConfig.recognized →
     same_up_to_cfg (<[k := opts]> (ReporterConfig._cfg self)) self
       (ReporterConfig.makeReporters construct)
       (ReporterConfig.makeReporters construct)) ∧
  ((∀ k, k ∈ ReporterConfig.recognized
         → ReporterConfig._cfg self !! k = None) →
   ReporterConfig.makeReporters construct self = (self, [], Ok [])).
Proof.
  split; [|split].
  - apply makeReporters_calls.
  - intros k opts. apply makeReporters_unrecognized.
  - apply makeReporters_nothing_recognized.
Qed.

Lemma C6_unknown_keys_ignored_witness :
  let cfg : gmap string ReporterConfig.options :=
    {[ "trajectory" := {[ "reportInterval" := ReporterConfig.PyInt 10 ]};
       "State" := ∅ ]} in
  let self := ReporterConfig.__init__ "blues-test" cfg None in
  (∀ k, k ∈ ReporterConfig.recognized → cfg !! k = None) ∧
  ReporterConfig.makeReporters ReporterConfig.as_called self
  = (self, [], Ok []).
Proof.
  assert (H : ∀ k, k ∈ ReporterConfig.recognized →
                ({[ "trajectory" :=
                      {[ "reportInterval" := ReporterConfig.PyInt 10 ]};
                    "State" := ∅ ]}
                 : gmap string ReporterConfig.options) !! k = None).
  { intros k Hk. unfold ReporterConfig.recognized in Hk.
    repeat (apply elem_of_cons in Hk as [->|Hk];
            [vm_compute; reflexivity|]).
    by apply not_elem_of_nil in Hk. }
  split; [exact H|].
  apply (proj2 (proj2 (C6_unknown_keys_ignored ReporterConfig.as_called
                         (ReporterConfig.__init__ "blues-test" _ None))) H).
Defined.

(** ** The logging bootstrap *)

Section logging_levels.
Import Logging.

Lemma agrees_lookup (library attrs : gmap string binding) (name : string)
    (b : binding) :
  agrees library attrs = true → library !! name = Some b →
  attrs !! name = Some b.
Proof.
  unfold agrees. rewrite List.forallb_forall. intros Hall Hl.
  apply elem_of_map_to_list, list_elem_of_In in Hl. apply Hall in Hl.
  by apply bool_decide_eq_true in Hl.
Qed.

Lemma agrees_intro (library attrs : gmap string binding) :
  (∀ name b, library !! name = Some b → attrs !! name = Some b) →
  agrees library attrs = true.
Proof.
  intros H. unfold agrees. rewrite List.forallb_forall.
  intros [name b] Hin. apply list_elem_of_In, elem_of_map_to_list in Hin.
  apply bool_decide_eq_true. simpl. by apply H.
Qed.

(** Assigning a name the library does not define, or assigning a name
    what it is bound to already, leaves the library as it is. *)
Lemma agrees_insert (library attrs : gmap string binding) (name : string)
    (b : binding) :
  agrees library attrs = true →
  library !! name = None ∨ library !! name = Some b →
  agrees library (<[name := b]> attrs) = true.
Proof.
  intros Ha Hn. apply agrees_intro. intros k v Hk.
  destruct (decide (k = name)) as [->|Hne].
  - rewrite lookup_insert_eq. destruct Hn as [Hn|Hn]; congruence.
  - rewrite lookup_insert_ne by done. by apply (agrees_lookup library).
Qed.

(** From an intact library with [warn], [addLevelName], [getLoggerClass]
    and [_loggerClass] in place, for ASCII names that do not begin with two
    underscores and a level name that is neither [getLoggerClass] nor
    [_loggerClass], the function warns once per name already taken, in the
    order of its three checks, registers the level and assigns the level
    and both methods. *)
Lemma addLoggingLevel_warns_and_registers (l : logging)
    (levelName : string) (levelNum : Z) (methodName : option string) :
  intact l = true →
  module_attrs l !! "warn" = Some Library →
  module_attrs l !! "addLevelName" = Some Library →
  module_attrs l !! "getLoggerClass" = Some Library →
  module_attrs l !! "_loggerClass" = Some Library →
  levelName ≠ "getLoggerClass" → levelName ≠ "_loggerClass" →
  let name := method_name levelName methodName in
  special levelName = false → special name = false →
  addLoggingLevel levelName levelNum methodName l
  = (setattr_module name (logToRoot levelNum)
       (setattr_class name (logForLevel levelNum)
          (setattr_module levelName (Level levelNum)
             (register_level levelNum levelName l))),
     (if hasattr (module_attrs l) levelName
      then [Warn (already_in_module levelName)] else [])
     ++ (if hasattr (module_attrs l) name
         then [Warn (already_in_module name)] else [])
     ++ (if hasattr (class_attrs l) name
         then [Warn (already_in_class name)] else []),
     Ok tt).
Proof.
  intros Hint Hwarn Hadd Hget Hcls Hne1 Hne2 name Hs1 Hs2.
  unfold addLoggingLevel, hasattr_logging, hasattr_of, setattr_logging,
    setattr_of, call_warn, call_getLoggerClass, call_addLevelName,
    library_body.
  fold name. rewrite Hs1, Hs2.
  unfold bind, get, when, emit, modify, ret, raise. simpl.
  destruct (hasattr (module_attrs l) levelName); simpl;
    rewrite ?Hwarn, ?Hint; simpl;
    (destruct (hasattr (module_attrs l) name); simpl;
     rewrite ?Hwarn, ?Hint, ?Hget, ?Hcls; simpl;
     (destruct (hasattr (class_attrs l) name); simpl;
      rewrite ?Hwarn, ?Hint, ?Hadd; simpl;
      unfold intact in *; simpl; rewrite ?Hint; simpl;
      rewrite !lookup_insert_ne by done; rewrite Hget, Hcls; reflexivity)).
Qed.

Lemma stock_intact : intact stock = true.
Proof. vm_compute. reflexivity. Qed.

Example add_trace_level :
  addLoggingLevel "TRACE" 5 None stock
  = (setattr_module "trace" (logToRoot 5)
       (setattr_class "trace" (logForLevel 5)
          (setattr_module "TRACE" (Level 5)
             (register_level 5 "TRACE" stock))),
     [], Ok tt).
Proof.
  rewrite addLoggingLevel_warns_and_registers;
    (reflexivity || done || (vm_compute; reflexivity)).
Qed.

Example add_debug_again :
  calls_of (addLoggingLevel "DEBUG" 10 None stock)
  = [Warn "DEBUG already defined in logging module";
     Warn "debug already defined in logging module";
     Warn "debug already defined in logger class"] ∧
  outcome_of (addLoggingLevel "DEBUG" 10 None stock) = Ok tt.
Proof.
  rewrite addLoggingLevel_warns_and_registers;
    [split; reflexivity | try done; vm_compute; reflexivity ..].
Qed.
End logging_levels.

(** C8, at the level name [getLoggerClass].  The name exists in the
    [logging] module, so the call warns, registers the level name and
    assigns the integer to [logging.getLoggerClass]; the next statement
    calls [logging.getLoggerClass()], now an integer, and raises
    [TypeError]: neither method attribute is set. *)
Theorem C8_level_named_getLoggerClass_raises :
  let run := Logging.addLoggingLevel "getLoggerClass" 5 (Some "trace")
               Logging.stock in
  Logging.hasattr (Logging.module_attrs Logging.stock) "getLoggerClass"
  = true ∧
  calls_of run
  = [Logging.Warn "getLoggerClass already defined in logging module"] ∧
  outcome_of run = Raise Logging.not_callable ∧
  Logging._levelToName (state_of run) !! 5 = Some "getLoggerClass" ∧
  Logging.module_attrs (state_of run) !! "getLoggerClass"
  = Some (Logging.Level 5) ∧
  Logging.module_attrs (state_of run) !! "trace" = None ∧
  Logging.class_attrs (state_of run) !! "trace" = None.
Proof. vm_compute. repeat split. Qed.


(** * Further properties *)

(** ** Cadence *)

Lemma next_steps_next_multiple (n k : Z) :
  1 ≤ n →
  ∃ steps,
    next_steps [] n k = Ok steps ∧
    1 ≤ steps ≤ n ∧
    (k + steps) mod n = 0 ∧
    ∀ j, k < j < k + steps → j mod n ≠ 0.
Proof.
  intros Hn. exists (n - k mod n).
  rewrite next_steps_periodic by lia.
  pose proof (Z.mod_pos_bound k n ltac:(lia)) as Hr.
  pose proof (Z.div_mod k n ltac:(lia)) as Hk.
  split; [done|]. split; [lia|]. split.
  - replace (k + (n - k mod n)) with ((k `div` n + 1) * n) by lia.
    apply Z.mod_mul. lia.
  - intros j Hj Hz.
    pose proof (Z.div_mod j n ltac:(lia)) as Hjq. rewrite Hz in Hjq.
    assert (k `div` n < j `div` n < k `div` n + 1) by nia. lia.
Qed.

(** X1. In periodic mode with an interval [n >= 1] the answer of
    [describeNextReport] at step [k] lies in [1..n] and leads to the next
    multiple of [n] after [k]: [k + steps] is a multiple of [n] and no step
    strictly between is. *)
Theorem X1_periodic_next_multiple (n : Z) (simulation : Simulation) :
  1 ≤ n →
  let k := currentStep simulation in
  let lands (answer : result cadence) :=
    ∃ steps, result_map steps_of answer = Ok steps ∧
             1 ≤ steps ≤ n ∧ (k + steps) mod n = 0 ∧
             ∀ j, k < j < k + steps → j mod n ≠ 0 in
  (∀ r, BLUESHDF5Reporter.frame_indices r = [] →
        BLUESHDF5Reporter._reportInterval r = n →
        lands (BLUESHDF5Reporter.describeNextReport r simulation)) ∧
  (∀ r, BLUESStateDataReporter.frame_indices r = [] →
        BLUESStateDataReporter._reportInterval r = n →
        lands (BLUESStateDataReporter.describeNextReport r simulation)) ∧
  (∀ r, NetCDF4Reporter.frame_indices r = [] →
        NetCDF4Reporter._reportInterval r = n →
        lands (NetCDF4Reporter.describeNextReport r simulation)).
Proof.
  intros Hn k lands.
  pose proof (next_steps_next_multiple n k Hn) as Hnext.
  repeat split; intros r Hf Hi; unfold lands;
    rewrite ?BLUESHDF5Reporter_steps, ?BLUESStateDataReporter_steps,
      ?NetCDF4Reporter_steps, Hf, Hi; exact Hnext.
Qed.

Lemma X1_periodic_next_multiple_witness :
  1 ≤ 250 ∧
  ∃ steps,
    result_map steps_of
      (NetCDF4Reporter.describeNextReport (Sample.netcdf 250 [])
         (Sample.simulation_at 1000)) = Ok steps ∧
    1 ≤ steps ≤ 250 ∧ (1000 + steps) mod 250 = 0 ∧
    ∀ j, 1000 < j < 1000 + steps → j mod 250 ≠ 0.
Proof.
  split; [lia|].
  apply (proj2 (proj2 (X1_periodic_next_multiple 250
                         (Sample.simulation_at 1000) ltac:(lia)))
           (Sample.netcdf 250 [])); reflexivity.
Defined.

Lemma next_steps_nonpositive_interval (n k : Z) :
  n ≤ 0 →
  match next_steps [] n k with
  | Ok steps => n ≤ steps ≤ -1
  | Raise e => n = 0 ∧ e = ZeroDivisionError
  end.
Proof.
  intros Hn. destruct (decide (n = 0)) as [->|Hz]; [done|].
  rewrite next_steps_periodic by done.
  pose proof (Z.mod_neg_bound k n ltac:(lia)). lia.
Qed.

(** X2. In periodic mode a report interval that is not positive never
    yields a positive number of steps, in all three classes: with an
    interval of 0 [describeNextReport] raises [ZeroDivisionError], and with
    a negative interval [n] it answers a number between [n] and -1. *)
Theorem X2_nonpositive_interval (n : Z) (simulation : Simulation) :
  n ≤ 0 →
  let fails (answer : result cadence) :=
    match result_map steps_of answer with
    | Ok steps => n ≤ steps ≤ -1
    | Raise e => n = 0 ∧ e = ZeroDivisionError
    end in
  (∀ r, BLUESHDF5Reporter.frame_indices r = [] →
        BLUESHDF5Reporter._reportInterval r = n →
        fails (BLUESHDF5Reporter.describeNextReport r simulation)) ∧
  (∀ r, BLUESStateDataReporter.frame_indices r = [] →
        BLUESStateDataReporter._reportInterval r = n →
        fails (BLUESStateDataReporter.describeNextReport r simulation)) ∧
  (∀ r, NetCDF4Reporter.frame_indices r = [] →
        NetCDF4Reporter._reportInterval r = n →
        fails (NetCDF4Reporter.describeNextReport r simulation)).
Proof.
  intros Hn fails.
  pose proof (next_steps_nonpositive_interval n (currentStep simulation) Hn)
    as Hnext.
  repeat split; intros r Hf Hi; unfold fails;
    rewrite ?BLUESHDF5Reporter_steps, ?BLUESStateDataReporter_steps,
      ?NetCDF4Reporter_steps, Hf, Hi; exact Hnext.
Qed.

Lemma X2_nonpositive_interval_witness :
  -4 ≤ 0 ∧
  match result_map steps_of
          (NetCDF4Reporter.describeNextReport (Sample.netcdf (-4) [])
             (Sample.simulation_at 7)) with
  | Ok steps => -4 ≤ steps ≤ -1
  | Raise e => -4 = 0 ∧ e = ZeroDivisionError
  end.
Proof.
  split; [lia|].
  apply (proj2 (proj2 (X2_nonpositive_interval (-4)
                         (Sample.simulation_at 7) ltac:(lia)))
           (Sample.netcdf (-4) [])); reflexivity.
Defined.


(** ** What [report] leaves alone, and what it does when the check fails *)

Section statedata_first.
Import BLUESStateDataReporter.

#[local] Opaque _constructReportValues _constructHeaders.

Ltac run_report' :=
  unfold statedata_report_at, calls_of, state_of, outcome_of,
    report, rebind_info, log_info, out_flush, _checkForErrors,
    except_AttributeError_pass, on_self, on_simulation,
    bind, get, when, emit, modify, ret, raise, lift;
  simpl.

Ltac values_run' :=
  repeat match goal with
  | |- context [_constructReportValues ?a ?b ?c ?d] =>
      let H := fresh "Hcalls" in
      pose proof (constructReportValues_calls a b c d) as H;
      unfold calls_of in H;
      destruct (_constructReportValues a b c d) as [[? ?] [?|?]];
      simpl in H; subst; simpl
  end.

Ltac by_cases' self state :=
  destruct self as [[inf rep fl af] ? ? ? ? ? ? ? ? ? ? ? ? ? ? ?
                    init ? ? ? ? ? ? ? ? ? ? ? ?];
  run_report';
  destruct init, inf as [[|]|], rep, fl, (passesErrorCheck state); simpl;
  values_run'.

Lemma statedata_report_keeps_cadence (self : t) (simulation : Simulation)
    (state : State) (clock : Clock) :
  let self' := fst (state_of (report state clock (self, simulation))) in
  frame_indices self' = frame_indices self ∧
  _reportInterval self' = _reportInterval self ∧
  _needsPositions self' = _needsPositions self ∧
  _needsVelocities self' = _needsVelocities self ∧
  _needsForces self' = _needsForces self ∧
  _needEnergy self' = _needEnergy self.
Proof. by_cases' self state; done. Qed.

#[local] Transparent _constructReportValues _constructHeaders.
End statedata_first.

(** X3. A call of [report] never changes what [describeNextReport]
    answers: the frame list, the interval and the needs-flags of a reporter
    are the same after the call as before, whether it returned or raised,
    in all three classes. *)
Theorem X3_report_keeps_cadence (simulation' : Simulation) :
  (∀ self simulation state,
     BLUESHDF5Reporter.describeNextReport
       (state_of (BLUESHDF5Reporter.report simulation state self)) simulation'
     = BLUESHDF5Reporter.describeNextReport self simulation') ∧
  (∀ self simulation state clock,
     BLUESStateDataReporter.describeNextReport
       (fst (state_of (BLUESStateDataReporter.report state clock
                         (self, simulation)))) simulation'
     = BLUESStateDataReporter.describeNextReport self simulation') ∧
  (∀ self simulation state,
     NetCDF4Reporter.describeNextReport
       (state_of (NetCDF4Reporter.report simulation state self)) simulation'
     = NetCDF4Reporter.describeNextReport self simulation').
Proof.
  split; [|split].
  - intros self simulation state. rewrite hdf5_report_run.
    unfold state_of. simpl. by destruct (BLUESHDF5Reporter._is_intialized self).
  - intros self simulation state clock.
    destruct (statedata_report_keeps_cadence self simulation state clock)
      as (Hf & Hi & Hp & Hv & Hfo & He).
    unfold BLUESStateDataReporter.describeNextReport.
    by rewrite Hf, Hi, Hp, Hv, Hfo, He.
  - intros self simulation state.
    destruct (NetCDF4Reporter._out self) as [traj|] eqn:Ho.
    + by rewrite (netcdf_report_opened self traj).
    + destruct (NetCDF4Reporter.crds self || NetCDF4Reporter.vels self
                || NetCDF4Reporter.frcs self) eqn:Hc.
      * destruct (atom_count_bound self state Hc) as [atom Ha].
        by rewrite (netcdf_report_first self simulation state atom).
      * by rewrite netcdf_report_unbound.
Qed.

(** X4. When the base class's error check rejects the state,
    [BLUESHDF5Reporter.report] raises without writing or flushing anything;
    the initialization it may have run counts all the same, so the next
    call does not initialize again. *)
Theorem X4_hdf5_failed_check (self : BLUESHDF5Reporter.t)
    (simulation : Simulation) (state : State) :
  passesErrorCheck state = false →
  let run := BLUESHDF5Reporter.report simulation state self in
  is_ok (outcome_of run) = false ∧
  count hdf5_is_write (calls_of run) = 0%nat ∧
  count hdf5_is_flush (calls_of run) = 0%nat ∧
  BLUESHDF5Reporter._is_intialized (state_of run) = true ∧
  ∀ simulation' state',
    count hdf5_is_init
      (calls_of (BLUESHDF5Reporter.report simulation' state' (state_of run)))
    = 0%nat.
Proof.
  intros Hc run. subst run. rewrite hdf5_report_run, Hc.
  unfold outcome_of, calls_of, state_of. simpl.
  assert (Hi : BLUESHDF5Reporter._is_intialized
                 (if BLUESHDF5Reporter._is_intialized self then self
                  else BLUESHDF5Reporter.set_initialized self) = true)
    by (by destruct (BLUESHDF5Reporter._is_intialized self) eqn:E).
  repeat split; try (by destruct (BLUESHDF5Reporter._is_intialized self)).
  intros simulation' state'.
  apply (hdf5_report_later _ (simulation', state') Hi).
Qed.

Lemma X4_hdf5_failed_check_witness :
  let run := BLUESHDF5Reporter.report (Sample.simulation_at 1)
               (Sample.state false) (Sample.hdf5 1 []) in
  passesErrorCheck (Sample.state false) = false ∧
  is_ok (outcome_of run) = false ∧
  count hdf5_is_write (calls_of run) = 0%nat ∧
  BLUESHDF5Reporter._is_intialized (state_of run) = true.
Proof.
  split; [reflexivity|].
  pose proof (X4_hdf5_failed_check (Sample.hdf5 1 []) (Sample.simulation_at 1)
                (Sample.state false) eq_refl) as (H1 & H2 & _ & H4 & _).
  by repeat split.
Defined.


(** ** The state-data reporter, call by call *)

Section statedata_calls.
Import BLUESStateDataReporter.

#[local] Opaque _constructReportValues _constructHeaders.

Ltac run_report'' :=
  unfold statedata_report_at, calls_of, state_of, outcome_of,
    report, rebind_info, log_info, out_flush, _checkForErrors,
    except_AttributeError_pass, on_self, on_simulation,
    initialized_at, rebound, written, flushed, writable,
    bind, get, when, emit, modify, ret, raise, lift;
  simpl.

Ltac values_run'' :=
  repeat match goal with
  | |- context [_constructReportValues ?a ?b ?c ?d] =>
      let H := fresh "Hcalls" in
      pose proof (constructReportValues_calls a b c d) as H;
      unfold calls_of in H;
      destruct (_constructReportValues a b c d) as [[? ?] [?|?]];
      simpl in H; subst; simpl
  end.

Ltac by_cases'' self state :=
  destruct self as [[inf rep fl af] ? ? ? ? ? ? ? ? ? ? ? ? ? ? ?
                    init ? ? ? ? ? ? ? ? ? ? ? ?];
  run_report'';
  destruct init, inf as [[|]|], rep, fl, (passesErrorCheck state); simpl.

(** The first call on an instance whose output can be written to, with a
    state that passes the check. *)
Lemma statedata_first_call (self : t) (simulation : Simulation)
    (state : State) (clock : Clock) :
  _hasInitialized self = false →
  writable self = true →
  passesErrorCheck state = true →
  let self1 := initialized_at clock state simulation self in
  let header :=
    InitializeConstants
    :: written self (HeaderLine (_separator self) (_constructHeaders self))
    :: flushed self in
  report state clock (self, simulation)
  = match _constructReportValues self1 state clock simulation with
    | (simulation', _, Ok values) =>
        ((self1, simulation'),
         header
         ++ CheckForErrors
            :: written self (ValueLine (title self) (_separator self) values)
            :: flushed self,
         Ok tt)
    | (simulation', _, Raise e) =>
        ((self1, simulation'), header ++ [CheckForErrors], Raise e)
    end.
Proof.
  by_cases'' self state; intros; simplify_eq/=;
    match goal with
    | |- context [_constructReportValues ?a ?b ?c ?d] =>
        pose proof (constructReportValues_calls a b c d) as Hcalls;
        unfold calls_of in Hcalls;
        destruct (_constructReportValues a b c d) as [[? ?] [?|?]];
        simpl in *; subst; reflexivity
    end.
Qed.



(** An output object with [report] is only ever written to through it, and
    what the call leaves bound to [info] is [report]. *)
Lemma statedata_report_through_report (self : t) (simulation : Simulation)
    (state : State) (clock : Clock) :
  has_report (_out self) = true →
  let run := report state clock (self, simulation) in
  count statedata_is_info (calls_of run) = 0%nat ∧
  (outcome_of run = Ok tt →
   info (_out (fst (state_of run))) = Some BoundToReport).
Proof.
  by_cases'' self state; intros; simplify_eq/=; values_run''; done.
Qed.

Lemma statedata_report_ok_needs (self : t) (simulation : Simulation)
    (state : State) (clock : Clock) :
  outcome_of (report state clock (self, simulation)) = Ok tt →
  writable self = true ∧ passesErrorCheck state = true.
Proof.
  by_cases'' self state; values_run''; intros; simplify_eq/=; done.
Qed.

#[local] Transparent _constructReportValues _constructHeaders.
End statedata_calls.

Section statedata_values.
Import BLUESStateDataReporter.

(** The simulation object after [_constructReportValues], whatever the
    outcome. *)
Lemma constructReportValues_simulation (self : t) (state : State)
    (clock : Clock) (sim : Simulation) :
  state_of (_constructReportValues self state clock sim)
  = if _currentIter self && bool_decide (currentIter sim = None)
    then set_currentIter 0 sim else sim.
Proof.
  unfold state_of, _constructReportValues. cbv zeta.
  unfold bind, get, ret, lift, when, modify, progress_value,
    remaining_value, getattr.
  destruct sim as [k [i|] integ cell].
  all: destruct (_currentIter self), (_progress self), (_speed self),
    (_elapsedTime self), (_remainingTime self),
    (_initialClockTime self), (_initialSimulationTime self),
    (_initialSteps self) as [s0|], (_totalSteps self) as [n|]; simpl;
    repeat case_decide; simpl; reflexivity.
Qed.

Lemma constructReportValues_first_value (self : t) (state : State)
    (clock : Clock) (sim sim' : Simulation) (tr : list call)
    (values : list value) :
  _currentIter self = true →
  _constructReportValues self state clock sim = (sim', tr, Ok values) →
  head values = Some (VCurrentIter (default 0 (currentIter sim))).
Proof.
  intros Hc. unfold _constructReportValues. cbv zeta. rewrite Hc. intros H.
  apply bind_Ok_inv in H as (s1 & t1 & v1 & t1' & H1 & H & ->).
  assert (Hv1 : v1 = [VCurrentIter (default 0 (currentIter sim))]).
  { revert H1. unfold bind, get, when, modify, lift, ret, getattr.
    destruct sim as [k [i|] integ cell]; simpl; by intros [= <- <- <-]. }
  subst v1.
  apply bind_Ok_inv in H as (s2 & t2 & simulation & t2' & _ & H & ->).
  apply bind_Ok_inv in H as (s3 & t3 & v2 & t3' & H2 & H & ->).
  assert (∃ rest, v2 = VCurrentIter (default 0 (currentIter sim)) :: rest)
    as [rest2 ->].
  { destruct (_progress self).
    - apply bind_Ok_inv in H2 as (? & ? & v & ? & _ & H2 & _).
      apply ret_Ok_inv in H2 as (-> & _). by eexists.
    - apply ret_Ok_inv in H2 as (-> & _). by eexists. }
  apply bind_Ok_inv in H as (s4 & t4 & v3 & t4' & H3 & H & ->).
  match type of H3 with context [ret (?p ++ _)] => set (P := p) in * end.
  assert (∃ rest, P = VCurrentIter (default 0 (currentIter sim)) :: rest)
    as [restP HP].
  { subst P. rewrite !append_if_app, <- !app_assoc. simpl. by eexists. }
  clearbody P. subst P.
  assert (∃ rest, v3 = VCurrentIter (default 0 (currentIter sim)) :: rest)
    as [rest3 ->].
  { destruct (_speed self).
    - apply bind_Ok_inv in H3 as (? & ? & ? & ? & _ & H3 & _).
      apply bind_Ok_inv in H3 as (? & ? & ? & ? & _ & H3 & _).
      apply ret_Ok_inv in H3 as (-> & _). by eexists.
    - apply ret_Ok_inv in H3 as (-> & _). by eexists. }
  apply bind_Ok_inv in H as (s5 & t5 & v4 & t5' & H4 & H & ->).
  assert (∃ rest, v4 = VCurrentIter (default 0 (currentIter sim)) :: rest)
    as [rest4 ->].
  { destruct (_elapsedTime self).
    - apply bind_Ok_inv in H4 as (? & ? & ? & ? & _ & H4 & _).
      apply ret_Ok_inv in H4 as (-> & _). by eexists.
    - apply ret_Ok_inv in H4 as (-> & _). by eexists. }
  apply bind_Ok_inv in H as (s6 & t6 & v5 & t6' & H5 & H & ->).
  apply ret_Ok_inv in H as (-> & _).
  destruct (_remainingTime self).
  - apply bind_Ok_inv in H5 as (? & ? & ? & ? & _ & H5 & _).
    by apply ret_Ok_inv in H5 as (-> & _).
  - by apply ret_Ok_inv in H5 as (-> & _).
Qed.


(** Once the steps of initialization are those of the current call, the
    estimate is the two dashes. *)
Lemma constructReportValues_no_steps_elapsed (self : t) (state : State)
    (clock : Clock) (sim sim' : Simulation) (tr : list call)
    (values : list value) :
  _remainingTime self = true →
  _initialSteps self = Some (currentStep sim) →
  _constructReportValues self state clock sim = (sim', tr, Ok values) →
  last values = Some (VRemainingTime Dashes).
Proof.
  intros Hr Hs. unfold _constructReportValues. cbv zeta. rewrite Hr.
  intros H.
  apply bind_Ok_inv in H as (s1 & t1 & v1 & t1' & H1 & H & ->).
  assert (Hs1 : currentStep s1 = currentStep sim).
  { revert H1. unfold bind, get, when, modify, lift, ret, getattr.
    destruct sim as [k [i|] integ cell], (_currentIter self); simpl;
      by intros [= <- _ _]. }
  apply bind_Ok_inv in H as (s2 & t2 & simulation & t2' & Hg & H & ->).
  unfold get in Hg. injection Hg as <- _ <-.
  apply bind_Ok_inv in H as (s3 & t3 & v2 & t3' & _ & H & ->).
  apply bind_Ok_inv in H as (s4 & t4 & v3 & t4' & _ & H & ->).
  apply bind_Ok_inv in H as (s5 & t5 & v4 & t5' & _ & H & ->).
  apply bind_Ok_inv in H as (s6 & t6 & v5 & t6' & H5 & H & ->).
  apply ret_Ok_inv in H as (-> & _).
  apply bind_Ok_inv in H5 as (? & ? & v & ? & Hv & H5 & _).
  apply lift_Ok_inv in Hv as (Hv & _).
  apply ret_Ok_inv in H5 as (-> & _).
  rewrite last_snoc. f_equal.
  revert Hv. unfold remaining_value, getattr. rewrite Hs, Hs1.
  destruct (_initialClockTime self); [|discriminate].
  rewrite Z.sub_diag. simpl. by intros [= <-].
Qed.

End statedata_values.


Section statedata_extras.
Import BLUESStateDataReporter.

Lemma initialized_at_fields (self : t) (state : State) (clock : Clock)
    (sim : Simulation) :
  let self1 := initialized_at clock state sim self in
  _hasInitialized self1 = true ∧
  _initialSteps self1 = Some (currentStep sim) ∧
  _remainingTime self1 = _remainingTime self ∧
  _progress self1 = _progress self ∧
  _totalSteps self1 = _totalSteps self.
Proof.
  unfold initialized_at, rebound.
  destruct self as [[inf rep fl af] ? ? ? ? ? ? ? ? ? ? ? ? ? ? ?
                    init ? ? ? ? ? ? ? ? ? ? ? ?]; simpl.
  by destruct rep.
Qed.


End statedata_extras.



(** X6. On the first call of [report] no step has elapsed since the
    initialization it has just done, so with the remaining-time column on
    the record written ends with the two dashes, whatever [totalSteps] is
    (even when it was never given). *)
Theorem X6_first_report_time_remaining_dashes
    (self : BLUESStateDataReporter.t) (simulation : Simulation)
    (state : State) (clock : BLUESStateDataReporter.Clock) :
  BLUESStateDataReporter._hasInitialized self = false →
  BLUESStateDataReporter._remainingTime self = true →
  let run := BLUESStateDataReporter.report state clock (self, simulation) in
  outcome_of run = Ok tt →
  ∃ values,
    BLUESStateDataReporter.written self
      (BLUESStateDataReporter.ValueLine (BLUESStateDataReporter.title self)
         (BLUESStateDataReporter._separator self) values) ∈ calls_of run ∧
    last values
    = Some (BLUESStateDataReporter.VRemainingTime
              BLUESStateDataReporter.Dashes).
Proof.
  intros Hi Hr run Hok. subst run.
  destruct (statedata_report_ok_needs self simulation state clock Hok)
    as [Hw Hp].
  destruct (initialized_at_fields self state clock simulation)
    as (_ & Hs & Hr1 & _).
  rewrite statedata_first_call in * by done.
  destruct (BLUESStateDataReporter._constructReportValues _ _ _ _)
    as [[s' tr] [values|e]] eqn:Hv; [|discriminate Hok].
  exists values. split.
  - unfold calls_of. simpl. set_solver.
  - eapply constructReportValues_no_steps_elapsed; [| |exact Hv].
    + by rewrite Hr1.
    + exact Hs.
Qed.

Lemma X6_first_report_time_remaining_dashes_witness :
  let run := BLUESStateDataReporter.report (Sample.state true) Sample.clock
               (Sample.eta, Sample.simulation_at 250) in
  BLUESStateDataReporter._hasInitialized Sample.eta = false ∧
  BLUESStateDataReporter._remainingTime Sample.eta = true ∧
  BLUESStateDataReporter._totalSteps Sample.eta = None ∧
  outcome_of run = Ok tt ∧
  ∃ values,
    BLUESStateDataReporter.written Sample.eta
      (BLUESStateDataReporter.ValueLine
         (BLUESStateDataReporter.title Sample.eta)
         (BLUESStateDataReporter._separator Sample.eta) values)
    ∈ calls_of run ∧
    last values
    = Some (BLUESStateDataReporter.VRemainingTime
              BLUESStateDataReporter.Dashes).
Proof.
  do 4 (split; [reflexivity|]).
  apply (X6_first_report_time_remaining_dashes Sample.eta
           (Sample.simulation_at 250) (Sample.state true) Sample.clock);
    reflexivity.
Defined.



(** X8. When the output object has a [report] method every line goes
    through it and none through [info]; a call that returns leaves
    [info] bound to [report] on that object. *)
Theorem X8_lines_go_through_report (self : BLUESStateDataReporter.t)
    (simulation : Simulation) (state : State)
    (clock : BLUESStateDataReporter.Clock) :
  BLUESStateDataReporter.has_report (BLUESStateDataReporter._out self) = true →
  let run := BLUESStateDataReporter.report state clock (self, simulation) in
  count statedata_is_info (calls_of run) = 0%nat ∧
  (outcome_of run = Ok tt →
   BLUESStateDataReporter.info
     (BLUESStateDataReporter._out (fst (state_of run)))
   = Some BLUESStateDataReporter.BoundToReport).
Proof. apply statedata_report_through_report. Qed.

Lemma X8_lines_go_through_report_witness :
  let self := Sample.statedata Sample.logger 1 [] in
  let run := BLUESStateDataReporter.report (Sample.state true) Sample.clock
               (self, Sample.simulation_at 1) in
  BLUESStateDataReporter.has_report (BLUESStateDataReporter._out self) = true ∧
  BLUESStateDataReporter.info (BLUESStateDataReporter._out self)
  = Some BLUESStateDataReporter.OwnInfo ∧
  count statedata_is_info (calls_of run) = 0%nat ∧
  BLUESStateDataReporter.info
    (BLUESStateDataReporter._out (fst (state_of run)))
  = Some BLUESStateDataReporter.BoundToReport.
Proof.
  do 2 (split; [reflexivity|]).
  pose proof (X8_lines_go_through_report (Sample.statedata Sample.logger 1 [])
                (Sample.simulation_at 1) (Sample.state true) Sample.clock
                eq_refl) as [H1 H2].
  split; [exact H1 | apply H2; reflexivity].
Defined.

(** X9. [_constructReportValues] touches the simulation object in one way
    only: with the iteration column on and no [currentIter] attribute
    there, it creates the attribute with value 0, whether it then returns
    or raises.  That column's value comes first in the list and is the
    attribute's value, 0 when it was just created. *)
Theorem X9_current_iter_created (self : BLUESStateDataReporter.t)
    (state : State) (clock : BLUESStateDataReporter.Clock)
    (simulation : Simulation) :
  let run := BLUESStateDataReporter._constructReportValues self state clock
               simulation in
  state_of run
  = (if BLUESStateDataReporter._currentIter self
        && bool_decide (currentIter simulation = None)
     then BLUESStateDataReporter.set_currentIter 0 simulation
     else simulation) ∧
  ∀ values,
    BLUESStateDataReporter._currentIter self = true →
    outcome_of run = Ok values →
    head values
    = Some (BLUESStateDataReporter.VCurrentIter
              (default 0 (currentIter simulation))).
Proof.
  intros run. split; [apply constructReportValues_simulation|].
  intros values Hc Hok. subst run.
  destruct (BLUESStateDataReporter._constructReportValues _ _ _ _)
    as [[s' tr] r] eqn:Hv. unfold outcome_of in Hok. simpl in Hok. subst r.
  exact (constructReportValues_first_value _ _ _ _ _ _ _ Hc Hv).
Qed.

Lemma X9_current_iter_created_witness :
  let run := BLUESStateDataReporter._constructReportValues Sample.iterated
               (Sample.state true) Sample.clock (Sample.simulation_at 250) in
  BLUESStateDataReporter._currentIter Sample.iterated = true ∧
  outcome_of run
  = Ok [BLUESStateDataReporter.VCurrentIter 0;
        BLUESStateDataReporter.VStep 250] ∧
  currentIter (state_of run) = Some 0 ∧
  head [BLUESStateDataReporter.VCurrentIter 0;
        BLUESStateDataReporter.VStep 250]
  = Some (BLUESStateDataReporter.VCurrentIter 0).
Proof.
  do 2 (split; [reflexivity|]).
  pose proof (X9_current_iter_created Sample.iterated (Sample.state true)
                Sample.clock (Sample.simulation_at 250)) as [Hs Hv].
  split; [by rewrite Hs|].
  apply Hv; reflexivity.
Defined.


(** ** The NetCDF reporter, frame by frame *)

Section netcdf_frames.
Import NetCDF4Reporter.

Lemma frame_calls_counts (self : t) (simulation : Simulation) (state : State)
    (pbc : bool) :
  let calls := frame_calls self simulation state pbc in
  count netcdf_is_time calls = 1%nat ∧
  count netcdf_is_cell calls = (if pbc then 1 else 0)%nat ∧
  count netcdf_is_coordinates calls = (if crds self then 1 else 0)%nat ∧
  count netcdf_is_velocities calls = (if vels self then 1 else 0)%nat ∧
  count netcdf_is_forces calls = (if frcs self then 1 else 0)%nat.
Proof.
  unfold frame_calls.
  by destruct pbc, (crds self), (vels self), (frcs self),
    (protocolWork self), (alchemicalLambda self).
Qed.

End netcdf_frames.

(** X10. The first call of [NetCDF4Reporter.report] opens the trajectory
    with the atom count of the first requested array and with periodic
    boundaries exactly when the topology has unit-cell dimensions at that
    moment.  That decision is kept: every later call issues the frame's
    [add_*] calls with the cell lengths added or not as decided at the
    first frame, whatever the topology says by then. *)
Theorem X10_periodic_box_decided_at_first_frame (self : NetCDF4Reporter.t)
    (simulation1 : Simulation) (state1 : State) :
  NetCDF4Reporter._out self = None →
  NetCDF4Reporter.crds self || NetCDF4Reporter.vels self
  || NetCDF4Reporter.frcs self = true →
  let run1 := NetCDF4Reporter.report simulation1 state1 self in
  let pbc := bool_decide (unitCellDimensions simulation1 ≠ None) in
  (∃ traj,
     NetCDF4Reporter._out (state_of run1) = Some traj ∧
     head (calls_of run1) = Some (NetCDF4Reporter.OpenNew traj) ∧
     NetCDF4Reporter.nc_uses_pbc traj = pbc ∧
     NetCDF4Reporter.atom_count self state1
     = Ok (NetCDF4Reporter.nc_atom traj)) ∧
  ∀ simulation2 state2,
    NetCDF4Reporter.report simulation2 state2 (state_of run1)
    = (state_of run1, frame_calls self simulation2 state2 pbc, Ok tt).
Proof.
  intros Ho Hc run1 pbc. subst run1.
  destruct (atom_count_bound self state1 Hc) as [atom Ha].
  rewrite (netcdf_report_first self simulation1 state1 atom) by done.
  unfold state_of, calls_of. simpl. split.
  - eexists. by repeat split.
  - intros simulation2 state2.
    by erewrite netcdf_report_opened by reflexivity.
Qed.

Lemma X10_periodic_box_decided_at_first_frame_witness :
  let self := Sample.netcdf 1 [] in
  let vacuum :=
    {| currentStep := 2; currentIter := None;
       integrator := integrator (Sample.simulation_at 2);
       unitCellDimensions := None |} in
  let run1 := NetCDF4Reporter.report (Sample.simulation_at 1)
                (Sample.state true) self in
  NetCDF4Reporter._out self = None ∧
  NetCDF4Reporter.crds self || NetCDF4Reporter.vels self
  || NetCDF4Reporter.frcs self = true ∧
  count netcdf_is_cell
    (calls_of (NetCDF4Reporter.report vacuum (Sample.state true)
                 (state_of run1))) = 1%nat.
Proof.
  do 2 (split; [reflexivity|]).
  pose proof (proj2 (X10_periodic_box_decided_at_first_frame
                       (Sample.netcdf 1 []) (Sample.simulation_at 1)
                       (Sample.state true) eq_refl eq_refl)) as H.
  simpl in H. by rewrite H.
Defined.

(** X11. Every call of [NetCDF4Reporter.report] that returns adds exactly
    one time entry and, for coordinates, velocities and forces, exactly one
    entry when the array is requested and none otherwise, so the frame
    counts of the requested arrays and of the time stay equal. *)
Theorem X11_one_entry_per_frame (self : NetCDF4Reporter.t)
    (simulation : Simulation) (state : State) :
  let run := NetCDF4Reporter.report simulation state self in
  outcome_of run = Ok tt →
  count netcdf_is_time (calls_of run) = 1%nat ∧
  count netcdf_is_coordinates (calls_of run)
  = (if NetCDF4Reporter.crds self then 1 else 0)%nat ∧
  count netcdf_is_velocities (calls_of run)
  = (if NetCDF4Reporter.vels self then 1 else 0)%nat ∧
  count netcdf_is_forces (calls_of run)
  = (if NetCDF4Reporter.frcs self then 1 else 0)%nat ∧
  count netcdf_is_cell (calls_of run)
  = (if NetCDF4Reporter.uses_pbc (state_of run) then 1 else 0)%nat.
Proof.
  intros run Hok. subst run.
  destruct (NetCDF4Reporter._out self) as [traj|] eqn:Ho.
  - rewrite (netcdf_report_opened self traj) in * by done.
    destruct (frame_calls_counts self simulation state
                (NetCDF4Reporter.uses_pbc self)) as (H1 & H2 & H3 & H4 & H5).
    by repeat split.
  - destruct (NetCDF4Reporter.crds self || NetCDF4Reporter.vels self
              || NetCDF4Reporter.frcs self) eqn:Hc.
    + destruct (atom_count_bound self state Hc) as [atom Ha].
      rewrite (netcdf_report_first self simulation state atom) in * by done.
      destruct (frame_calls_counts self simulation state
                  (bool_decide (unitCellDimensions simulation ≠ None)))
        as (H1 & H2 & H3 & H4 & H5).
      by repeat split.
    + rewrite netcdf_report_unbound in Hok by done. discriminate.
Qed.

Lemma X11_one_entry_per_frame_witness :
  let run := NetCDF4Reporter.report (Sample.simulation_at 1)
               (Sample.state true) (Sample.netcdf 1 []) in
  outcome_of run = Ok tt ∧
  count netcdf_is_time (calls_of run) = 1%nat ∧
  count netcdf_is_coordinates (calls_of run) = 1%nat ∧
  count netcdf_is_velocities (calls_of run) = 0%nat.
Proof.
  split; [reflexivity|].
  pose proof (X11_one_entry_per_frame (Sample.netcdf 1 [])
                (Sample.simulation_at 1) (Sample.state true) eq_refl)
    as (H1 & H2 & H3 & _).
  split; [exact H1|]. split; [exact H2 | exact H3].
Defined.


(** ** The factory, kind by kind *)

Section factory_kinds.
Import ReporterConfig.

Lemma py_add_str_ok (self : t) (opts : options) (ext : string) :
  outfname_is_str opts = true →
  py_add_str (choose_outfname self opts) ext
  = Ok (outfname_of self opts +:+ ext).
Proof.
  unfold outfname_is_str, py_add_str, choose_outfname, outfname_of.
  by destruct (opts !! "outfname") as [[]|].
Qed.

Lemma kind_table (file : string) (logger : Logger) :
  (constructor_for "state" (file +:+ extension "state") logger
   = StateDataReporter (file +:+ ".ene")) ∧
  (constructor_for "traj_netcdf" (file +:+ extension "traj_netcdf") logger
   = NetCDF4Reporter (file +:+ ".nc")) ∧
  (constructor_for "restart" (file +:+ extension "restart") logger
   = RestartReporter (file +:+ ".rst7") true) ∧
  (constructor_for "progress" (file +:+ extension "progress") logger
   = ProgressReporter (file +:+ ".prog")) ∧
  (constructor_for "stream" (file +:+ extension "stream") logger
   = BLUESStateDataReporter logger).
Proof.
  unfold constructor_for, extension.
  repeat split; repeat case_decide; done.
Qed.

Lemma makeReporters_all_accepted {reporter : Type}
    (mk : constructor → options → reporter) (self : t) :
  (∀ kind opts, kind ∈ recognized → kind ≠ "stream" →
                _cfg self !! kind = Some opts → outfname_is_str opts = true) →
  let run := makeReporters (λ c o, Ok (mk c o)) self in
  let logger := default module_logger (_logger self) in
  let expected :=
    omap (λ kind,
            opts ← _cfg self !! kind;
            Some (constructor_for kind
                    (outfname_of self opts +:+ extension kind) logger, opts))
      recognized in
  calls_of run = expected ∧
  outcome_of run = Ok ((λ c, mk c.1 c.2) <$> expected) ∧
  _outfname (state_of run) = _outfname self ∧
  _cfg (state_of run) = _cfg self ∧
  _logger (state_of run)
  = (if bool_decide (is_Some (_cfg self !! "stream")) then Some logger
     else _logger self) ∧
  trajectory_interval (state_of run)
  = default (trajectory_interval self)
      (_cfg self !! "traj_netcdf" ≫= λ opts, opts !! "reportInterval").
Proof.
  intros Hstr.
  assert (H1 : ∀ o, _cfg self !! "state" = Some o →
                    outfname_is_str o = true)
    by (intros o; apply Hstr; [unfold recognized; set_solver | done]).
  assert (H2 : ∀ o, _cfg self !! "traj_netcdf" = Some o →
                    outfname_is_str o = true)
    by (intros o; apply Hstr; [unfold recognized; set_solver | done]).
  assert (H3 : ∀ o, _cfg self !! "restart" = Some o →
                    outfname_is_str o = true)
    by (intros o; apply Hstr; [unfold recognized; set_solver | done]).
  assert (H4 : ∀ o, _cfg self !! "progress" = Some o →
                    outfname_is_str o = true)
    by (intros o; apply Hstr; [unfold recognized; set_solver | done]).
  clear Hstr.
  unfold makeReporters, new, recognized, calls_of, outcome_of, state_of,
    bind, get, when, emit, modify, ret, lift.
  destruct self as [prefix cfg logger ti]. simpl in *.
  destruct (cfg !! "state") as [o1|];
    [rewrite (py_add_str_ok _ o1) by eauto|];
  (destruct (cfg !! "traj_netcdf") as [o2|];
    [rewrite (py_add_str_ok _ o2) by eauto;
     destruct (o2 !! "reportInterval") eqn:Er|]);
  (destruct (cfg !! "restart") as [o3|];
    [rewrite (py_add_str_ok _ o3) by eauto|]);
  (destruct (cfg !! "progress") as [o4|];
    [rewrite (py_add_str_ok _ o4) by eauto|]);
  destruct (cfg !! "stream") as [o5|]; destruct logger as [l|];
  simpl; rewrite ?Er;
  repeat match goal with
  | |- context [constructor_for _ (?f +:+ _) ?l] =>
      let K1 := fresh in let K2 := fresh in let K3 := fresh in
      let K4 := fresh in let K5 := fresh in
      destruct (kind_table f l) as (K1 & K2 & K3 & K4 & K5);
      rewrite ?K1, ?K2, ?K3, ?K4, ?K5; clear K1 K2 K3 K4 K5
  end; repeat split; reflexivity.
Qed.
End factory_kinds.


Section factory_failures.
Import ReporterConfig.
Context {reporter : Type}.
Variable construct : constructor → options → result reporter.

Ltac unfold_factory :=
  unfold makeReporters, new, calls_of, outcome_of, state_of,
    bind, get, when, emit, modify, ret, lift.

Lemma makeReporters_state_not_str (self : t) (opts : options) :
  _cfg self !! "state" = Some opts →
  outfname_is_str opts = false →
  ∃ msg, makeReporters construct self = (self, [], Raise (TypeError msg)).
Proof.
  intros Hs Hstr. unfold_factory. rewrite Hs.
  unfold py_add_str, choose_outfname, outfname_is_str in *.
  destruct (opts !! "outfname") as [[]|]; try discriminate; by eexists.
Qed.

Lemma makeReporters_state_raises (self : t) (opts : options) (e : exn) :
  _cfg self !! "state" = Some opts →
  outfname_is_str opts = true →
  construct (StateDataReporter (outfname_of self opts +:+ ".ene")) opts
  = Raise e →
  makeReporters construct self
  = (self, [(StateDataReporter (outfname_of self opts +:+ ".ene"), opts)],
     Raise e).
Proof.
  intros Hs Hstr He. unfold_factory. rewrite Hs.
  rewrite (py_add_str_ok _ opts ".ene" Hstr). simpl. by rewrite He.
Qed.
Lemma py_add_str_raises (x : pyval) (ext : string) (e : exn) :
  py_add_str x ext = Raise e → ∃ msg, e = TypeError msg.
Proof. destruct x; simpl; intros [= <-]; by eexists. Qed.

Lemma binds_outfname (file : string) (opts : options) :
  is_Some (opts !! "outfname") → binds (NetCDF4Reporter file) opts = false.
Proof.
  intros [v Hv]. unfold binds. apply bool_decide_eq_false. intros Hall.
  apply (map_Forall_lookup_1 _ _ _ _ Hall) in Hv.
  unfold NetCDF4Reporter.keyword_parameters in Hv.
  repeat (apply elem_of_cons in Hv as [Hv|Hv]; [discriminate Hv|]).
  by apply not_elem_of_nil in Hv.
Qed.

Lemma bound_call_obeys : obeys_signatures bound_call.
Proof.
  intros c opts Hb. unfold bound_call. rewrite Hb. by eexists.
Qed.

#[local] Opaque py_add_str choose_outfname.

Ltac factory_case :=
  simpl;
  match goal with
  | |- context [match ?c !! ?k with _ => _ end] => destruct (c !! k)
  | |- context [py_add_str ?x ?e] => destruct (py_add_str x e)
  | |- context [construct ?c ?o] => destruct (construct c o)
  | |- context [bool_decide ?P] => destruct (bool_decide P)
  end.

(** The blocks after the trajectory block leave [trajectory_interval]
    alone; so does the whole run when there is no trajectory block or no
    interval in its options. *)
Lemma makeReporters_interval_untouched (self : t) :
  (_cfg self !! "traj_netcdf" ≫= λ opts, opts !! "reportInterval") = None →
  trajectory_interval (state_of (makeReporters construct self))
  = trajectory_interval self.
Proof.
  intros Hn. unfold_factory.
  destruct self as [prefix cfg logger ti]. simpl in *.
  destruct (cfg !! "traj_netcdf") as [o2|]; simpl in Hn; rewrite ?Hn;
    repeat factory_case; reflexivity.
Qed.

Lemma makeReporters_interval_stored (self : t) (opts : options) (v : pyval) :
  _cfg self !! "traj_netcdf" = Some opts →
  opts !! "reportInterval" = Some v →
  match _cfg self !! "state" with
  | None => True
  | Some o =>
      outfname_is_str o = true ∧
      is_ok (construct (StateDataReporter (outfname_of self o +:+ ".ene")) o)
      = true
  end →
  trajectory_interval (state_of (makeReporters construct self)) = v.
Proof.
  intros Ht Hv Hs. unfold_factory.
  destruct self as [prefix cfg logger ti]. simpl in *.
  rewrite Ht. simpl. rewrite Hv.
  destruct (cfg !! "state") as [o1|].
  - destruct Hs as [Hstr Hok].
    rewrite (py_add_str_ok _ o1 ".ene" Hstr). simpl in *.
    destruct (construct _ o1); [|discriminate Hok].
    repeat factory_case; reflexivity.
  - repeat factory_case; reflexivity.
Qed.

(** The options of the trajectory kind cannot carry an [outfname]: the
    constructor defined in this file has no such parameter. *)
Lemma makeReporters_netcdf_outfname (self : t) (opts : options) :
  obeys_signatures construct →
  _cfg self !! "traj_netcdf" = Some opts →
  is_Some (opts !! "outfname") →
  is_ok (outcome_of (makeReporters construct self)) = false ∧
  (_cfg self !! "state" = None →
   ∃ msg, outcome_of (makeReporters construct self) = Raise (TypeError msg)).
Proof.
  intros Hobeys Ht Ho. unfold_factory.
  destruct self as [prefix cfg logger ti]. simpl in *. rewrite Ht.
  assert (Hnc : ∀ f, ∃ msg, construct (NetCDF4Reporter f) opts
                            = Raise (TypeError msg))
    by (intros f; apply Hobeys, binds_outfname, Ho).
  split.
  - destruct (cfg !! "state") as [o1|]; simpl;
      [destruct (py_add_str _ ".ene"); simpl; [|done];
       destruct (construct _ o1); simpl; [|done]|];
      destruct (bool_decide _); simpl;
      (destruct (py_add_str _ ".nc") as [f|]; simpl; [|done];
       destruct (Hnc f) as [msg ->]; done).
  - intros ->. simpl.
    destruct (bool_decide _); simpl;
      (destruct (py_add_str _ ".nc") as [f|e] eqn:Ef; simpl;
       [destruct (Hnc f) as [msg ->]; by eexists
       |destruct (py_add_str_raises _ _ _ Ef) as [msg ->]; by eexists]).
Qed.
#[local] Transparent py_add_str choose_outfname.
End factory_failures.

(** X12. When every constructor accepts its arguments and every
    [outfname] option is a string, [makeReporters] returns one reporter
    per recognized key present, in the fixed order state, traj_netcdf,
    restart, progress, stream whatever the order of the mapping, each file
    reporter built on its own [outfname] option or else the prefix,
    followed by [.ene], [.nc], [.rst7] (with [netcdf=True]) or [.prog], and
    the stream reporter built on the configured logger or else the module's
    logger, which is then kept in [_logger]. *)
Theorem X12_one_reporter_per_recognized_key {reporter : Type}
    (mk : ReporterConfig.constructor → ReporterConfig.options → reporter)
    (self : ReporterConfig.t) :
  (∀ kind opts,
     kind ∈ ReporterConfig.recognized → kind ≠ "stream" →
     ReporterConfig._cfg self !! kind = Some opts →
     ReporterConfig.outfname_is_str opts = true) →
  let run := ReporterConfig.makeReporters (λ c o, Ok (mk c o)) self in
  let logger :=
    default ReporterConfig.module_logger (ReporterConfig._logger self) in
  let expected :=
    omap (λ kind,
            opts ← ReporterConfig._cfg self !! kind;
            Some (ReporterConfig.constructor_for kind
                    (ReporterConfig.outfname_of self opts
                     +:+ ReporterConfig.extension kind) logger, opts))
      ReporterConfig.recognized in
  calls_of run = expected ∧
  outcome_of run = Ok ((λ c, mk c.1 c.2) <$> expected) ∧
  ReporterConfig._outfname (state_of run) = ReporterConfig._outfname self ∧
  ReporterConfig._cfg (state_of run) = ReporterConfig._cfg self ∧
  ReporterConfig._logger (state_of run)
  = (if bool_decide (is_Some (ReporterConfig._cfg self !! "stream"))
     then Some logger else ReporterConfig._logger self) ∧
  ReporterConfig.trajectory_interval (state_of run)
  = default (ReporterConfig.trajectory_interval self)
      (ReporterConfig._cfg self !! "traj_netcdf"
       ≫= λ opts, opts !! "reportInterval").
Proof. apply makeReporters_all_accepted. Qed.

Lemma X12_one_reporter_per_recognized_key_witness :
  let cfg : gmap string ReporterConfig.options :=
    {[ "stream" := {[ "reportInterval" := ReporterConfig.PyInt 10 ]};
       "unknown" := ∅;
       "state" := {[ "reportInterval" := ReporterConfig.PyInt 5 ]} ]} in
  let self := ReporterConfig.__init__ "blues-test" cfg None in
  let run := ReporterConfig.makeReporters (λ c o, Ok (c, o)) self in
  calls_of run
  = [(ReporterConfig.StateDataReporter "blues-test.ene",
      {[ "reportInterval" := ReporterConfig.PyInt 5 ]});
     (ReporterConfig.BLUESStateDataReporter ReporterConfig.module_logger,
      {[ "reportInterval" := ReporterConfig.PyInt 10 ]})] ∧
  outcome_of run = Ok (calls_of run).
Proof.
  destruct (X12_one_reporter_per_recognized_key
              (λ c o, (c, o))
              (ReporterConfig.__init__ "blues-test"
                 {[ "stream" :=
                      {[ "reportInterval" := ReporterConfig.PyInt 10 ]};
                    "unknown" := ∅;
                    "state" :=
                      {[ "reportInterval" := ReporterConfig.PyInt 5 ]} ]}
                 None))
    as (Hcalls & Hout & _).
  - intros kind opts Hin Hne Hk.
    unfold ReporterConfig.recognized in Hin.
    repeat (apply elem_of_cons in Hin as [->|Hin]);
      try (by apply not_elem_of_nil in Hin);
      try done; vm_compute in Hk; try discriminate Hk.
    injection Hk as <-. vm_compute. reflexivity.
  - split.
    + etrans; [exact Hcalls|]. vm_compute. reflexivity.
    + etrans; [exact Hout|]. vm_compute. reflexivity.
Defined.

(** X13. [makeReporters] records the report interval of the trajectory
    reporter in [trajectory_interval] before it calls that reporter's
    constructor: once the state block is through, the interval is recorded
    even if the file name cannot be built or the constructor raises.
    Nothing else assigns [trajectory_interval]: without a [traj_netcdf] key,
    or without a [reportInterval] among its options, the attribute is
    unchanged, whatever the constructors do. *)
Theorem X13_trajectory_interval_recorded {reporter : Type}
    (construct : ReporterConfig.constructor → ReporterConfig.options
                 → result reporter)
    (self : ReporterConfig.t) :
  let run := ReporterConfig.makeReporters construct self in
  ((ReporterConfig._cfg self !! "traj_netcdf"
    ≫= λ opts, opts !! "reportInterval") = None →
   ReporterConfig.trajectory_interval (state_of run)
   = ReporterConfig.trajectory_interval self) ∧
  (∀ opts v,
     ReporterConfig._cfg self !! "traj_netcdf" = Some opts →
     opts !! "reportInterval" = Some v →
     match ReporterConfig._cfg self !! "state" with
     | None => True
     | Some o =>
         ReporterConfig.outfname_is_str o = true ∧
         is_ok (construct
                  (ReporterConfig.StateDataReporter
                     (ReporterConfig.outfname_of self o +:+ ".ene")) o)
         = true
     end →
     ReporterConfig.trajectory_interval (state_of run) = v).
Proof.
  split.
  - apply makeReporters_interval_untouched.
  - intros opts v. apply makeReporters_interval_stored.
Qed.

Lemma X13_trajectory_interval_recorded_witness :
  let cfg : gmap string ReporterConfig.options :=
    {[ "traj_netcdf" := {[ "reportInterval" := ReporterConfig.PyInt 250;
                           "outfname" := ReporterConfig.PyInt 7 ]} ]} in
  let self := ReporterConfig.__init__ "blues-test" cfg None in
  let run := ReporterConfig.makeReporters ReporterConfig.as_called self in
  is_ok (outcome_of run) = false ∧
  ReporterConfig.trajectory_interval (state_of run) = ReporterConfig.PyInt 250.
Proof.
  split; [vm_compute; reflexivity|].
  apply (proj2 (X13_trajectory_interval_recorded ReporterConfig.as_called
                  (ReporterConfig.__init__ "blues-test"
                     {[ "traj_netcdf" :=
                          {[ "reportInterval" := ReporterConfig.PyInt 250;
                             "outfname" := ReporterConfig.PyInt 7 ]} ]}
                     None))
           {[ "reportInterval" := ReporterConfig.PyInt 250;
              "outfname" := ReporterConfig.PyInt 7 ]}
           (ReporterConfig.PyInt 250));
    vm_compute; done.
Defined.

(** X14. A failure in the state block ends [makeReporters] at once,
    whatever other keys the mapping has: with an [outfname] option that is
    not a string it raises [TypeError] before any constructor is called,
    and when the state reporter's constructor raises, that exception is
    passed on after that single call.  In both cases no other reporter is
    built and the configuration object is left as it was. *)
Theorem X14_state_failure_stops_the_factory {reporter : Type}
    (construct : ReporterConfig.constructor → ReporterConfig.options
                 → result reporter)
    (self : ReporterConfig.t) (opts : ReporterConfig.options) :
  ReporterConfig._cfg self !! "state" = Some opts →
  (ReporterConfig.outfname_is_str opts = false →
   ∃ msg, ReporterConfig.makeReporters construct self
          = (self, [], Raise (TypeError msg))) ∧
  (∀ e,
     ReporterConfig.outfname_is_str opts = true →
     construct (ReporterConfig.StateDataReporter
                  (ReporterConfig.outfname_of self opts +:+ ".ene")) opts
     = Raise e →
     ReporterConfig.makeReporters construct self
     = (self,
        [(ReporterConfig.StateDataReporter
            (ReporterConfig.outfname_of self opts +:+ ".ene"), opts)],
        Raise e)).
Proof.
  intros Hs. split.
  - by apply makeReporters_state_not_str.
  - intros e. by apply makeReporters_state_raises.
Qed.

Lemma X14_state_failure_stops_the_factory_witness :
  let opts : ReporterConfig.options :=
    {[ "outfname" := ReporterConfig.PyInt 7 ]} in
  let cfg : gmap string ReporterConfig.options :=
    {[ "state" := opts; "stream" := ∅ ]} in
  let self := ReporterConfig.__init__ "blues-test" cfg None in
  cfg !! "state" = Some opts ∧
  ReporterConfig.outfname_is_str opts = false ∧
  ∃ msg, ReporterConfig.makeReporters ReporterConfig.as_called self
         = (self, [], Raise (TypeError msg)).
Proof.
  assert (Hs : ({[ "state" := {[ "outfname" := ReporterConfig.PyInt 7 ]};
                   "stream" := ∅ ]}
                : gmap string ReporterConfig.options) !! "state"
               = Some {[ "outfname" := ReporterConfig.PyInt 7 ]})
    by (vm_compute; reflexivity).
  split; [exact Hs|]. split; [vm_compute; reflexivity|].
  apply (proj1 (X14_state_failure_stops_the_factory ReporterConfig.as_called
                  (ReporterConfig.__init__ "blues-test" _ None) _ Hs)).
  vm_compute. reflexivity.
Defined.

(** X15. The [outfname] option cannot be used for the trajectory
    reporter.  [makeReporters] forwards the whole options mapping as
    keywords, and [NetCDF4Reporter.__init__] has no [outfname] parameter:
    under Python's keyword binding the call never returns a list when the
    [traj_netcdf] options contain [outfname], and without a state block the
    exception is a [TypeError]. *)
Theorem X15_outfname_breaks_the_trajectory_reporter {reporter : Type}
    (construct : ReporterConfig.constructor → ReporterConfig.options
                 → result reporter)
    (self : ReporterConfig.t) (opts : ReporterConfig.options) :
  ReporterConfig.obeys_signatures construct →
  ReporterConfig._cfg self !! "traj_netcdf" = Some opts →
  is_Some (opts !! "outfname") →
  let run := ReporterConfig.makeReporters construct self in
  is_ok (outcome_of run) = false ∧
  (ReporterConfig._cfg self !! "state" = None →
   ∃ msg, outcome_of run = Raise (TypeError msg)).
Proof. apply makeReporters_netcdf_outfname. Qed.

Lemma X15_outfname_breaks_the_trajectory_reporter_witness :
  let opts : ReporterConfig.options :=
    {[ "reportInterval" := ReporterConfig.PyInt 250;
       "outfname" := ReporterConfig.PyStr "run7" ]} in
  let cfg : gmap string ReporterConfig.options :=
    {[ "traj_netcdf" := opts ]} in
  let self := ReporterConfig.__init__ "blues-test" cfg None in
  ReporterConfig.obeys_signatures ReporterConfig.bound_call ∧
  cfg !! "traj_netcdf" = Some opts ∧
  is_Some (opts !! "outfname") ∧
  is_ok (outcome_of
           (ReporterConfig.makeReporters ReporterConfig.bound_call self))
  = false.
Proof.
  assert (Ht : ({[ "traj_netcdf" :=
                     {[ "reportInterval" := ReporterConfig.PyInt 250;
                        "outfname" := ReporterConfig.PyStr "run7" ]} ]}
                : gmap string ReporterConfig.options) !! "traj_netcdf"
               = Some {[ "reportInterval" := ReporterConfig.PyInt 250;
                         "outfname" := ReporterConfig.PyStr "run7" ]})
    by (vm_compute; reflexivity).
  assert (Ho : is_Some (({[ "reportInterval" := ReporterConfig.PyInt 250;
                            "outfname" := ReporterConfig.PyStr "run7" ]}
                         : ReporterConfig.options) !! "outfname"))
    by (vm_compute; eauto).
  split; [exact bound_call_obeys|]. split; [exact Ht|]. split; [exact Ho|].
  apply (proj1 (X15_outfname_breaks_the_trajectory_reporter
                  ReporterConfig.bound_call
                  (ReporterConfig.__init__ "blues-test" _ None) _
                  bound_call_obeys Ht Ho)).
Defined.

Section logging_extras.
Import Logging.

Lemma setattr_twice (m : gmap string binding) (a b : string)
    (x y : binding) :
  <[b := y]> (<[a := x]> (<[b := y]> (<[a := x]> m)))
  = <[b := y]> (<[a := x]> m).
Proof.
  apply map_eq. intros i.
  destruct (decide (i = b)) as [->|Hb].
  - by rewrite !lookup_insert_eq.
  - rewrite !(lookup_insert_ne _ b i) by done.
    destruct (decide (i = a)) as [->|Ha].
    + by rewrite !lookup_insert_eq.
    + by repeat (rewrite lookup_insert_ne by done).
Qed.

Lemma insert_twice {K : Type} `{Countable K} {A : Type} (m : gmap K A)
    (k : K) (x : A) :
  <[k := x]> (<[k := x]> m) = <[k := x]> m.
Proof.
  apply map_eq. intros i. destruct (decide (i = k)) as [->|Hk].
  - by rewrite !lookup_insert_eq.
  - by rewrite !lookup_insert_ne by done.
Qed.

Lemma addLoggingLevel_bindings (l : logging)
    (levelName : string) (levelNum : Z) (methodName : option string) :
  intact l = true →
  module_attrs l !! "warn" = Some Library →
  module_attrs l !! "addLevelName" = Some Library →
  module_attrs l !! "getLoggerClass" = Some Library →
  module_attrs l !! "_loggerClass" = Some Library →
  levelName ≠ "getLoggerClass" → levelName ≠ "_loggerClass" →
  let name := method_name levelName methodName in
  special levelName = false → special name = false →
  let run := addLoggingLevel levelName levelNum methodName l in
  outcome_of run = Ok tt ∧
  _levelToName (state_of run) !! levelNum = Some levelName ∧
  _nameToLevel (state_of run) !! levelName = Some levelNum ∧
  class_attrs (state_of run) !! name = Some (logForLevel levelNum) ∧
  module_attrs (state_of run) !! name = Some (logToRoot levelNum) ∧
  module_attrs (state_of run) !! levelName
  = Some (if decide (name = levelName) then logToRoot levelNum
          else Level levelNum).
Proof.
  intros Hint Hwarn Hadd Hget Hcls Hne1 Hne2 name Hs1 Hs2 run. unfold run.
  rewrite addLoggingLevel_warns_and_registers by done. fold name.
  unfold outcome_of, state_of; simpl.
  repeat split; try by rewrite lookup_insert_eq.
  destruct (decide (name = levelName)) as [Heq|Hn].
  - by rewrite Heq, lookup_insert_eq.
  - rewrite lookup_insert_ne by done. by rewrite lookup_insert_eq.
Qed.

Lemma addLoggingLevel_again (l : logging)
    (levelName : string) (levelNum : Z) (methodName : option string) :
  intact l = true →
  module_library l !! "warn" = Some Library →
  module_library l !! "addLevelName" = Some Library →
  module_library l !! "getLoggerClass" = Some Library →
  module_library l !! "_loggerClass" = Some Library →
  let name := method_name levelName methodName in
  module_library l !! levelName = None →
  module_library l !! name = None →
  class_library l !! name = None →
  special levelName = false → special name = false →
  let first := state_of (addLoggingLevel levelName levelNum methodName l) in
  outcome_of (addLoggingLevel levelName levelNum methodName l) = Ok tt ∧
  intact first = true ∧
  addLoggingLevel levelName levelNum methodName first
  = (first,
     [Warn (already_in_module levelName);
      Warn (already_in_module name);
      Warn (already_in_class name)],
     Ok tt).
Proof.
  intros Hint Lwarn Ladd Lget Lcls name Hl Hn Hc Hs1 Hs2 first.
  pose proof Hint as Hint'. unfold intact in Hint'.
  apply andb_true_iff in Hint' as [Hm Hk].
  pose proof (agrees_lookup _ _ _ _ Hm Lwarn) as Hwarn.
  pose proof (agrees_lookup _ _ _ _ Hm Ladd) as Hadd.
  pose proof (agrees_lookup _ _ _ _ Hm Lget) as Hget.
  pose proof (agrees_lookup _ _ _ _ Hm Lcls) as Hcls.
  assert (Hl1 : levelName ≠ "warn") by congruence.
  assert (Hl2 : levelName ≠ "addLevelName") by congruence.
  assert (Hl3 : levelName ≠ "getLoggerClass") by congruence.
  assert (Hl4 : levelName ≠ "_loggerClass") by congruence.
  assert (Hn1 : name ≠ "warn") by congruence.
  assert (Hn2 : name ≠ "addLevelName") by congruence.
  assert (Hn3 : name ≠ "getLoggerClass") by congruence.
  assert (Hn4 : name ≠ "_loggerClass") by congruence.
  assert (Hfirst : addLoggingLevel levelName levelNum methodName l
    = (setattr_module name (logToRoot levelNum)
         (setattr_class name (logForLevel levelNum)
            (setattr_module levelName (Level levelNum)
               (register_level levelNum levelName l))),
       (if hasattr (module_attrs l) levelName
        then [Warn (already_in_module levelName)] else [])
       ++ (if hasattr (module_attrs l) name
           then [Warn (already_in_module name)] else [])
       ++ (if hasattr (class_attrs l) name
           then [Warn (already_in_class name)] else []),
       Ok tt))
    by (by apply addLoggingLevel_warns_and_registers).
  unfold first. rewrite Hfirst. unfold state_of, outcome_of. simpl.
  split; [reflexivity|].
  assert (Hint1 : intact
            (setattr_module name (logToRoot levelNum)
               (setattr_class name (logForLevel levelNum)
                  (setattr_module levelName (Level levelNum)
                     (register_level levelNum levelName l)))) = true).
  { unfold intact. simpl. apply andb_true_iff. split.
    - apply agrees_insert; [|by left]. apply agrees_insert; [done|by left].
    - apply agrees_insert; [done|by left]. }
  split; [exact Hint1|].
  rewrite addLoggingLevel_warns_and_registers; try done.
  - fold name. simpl. unfold hasattr.
    rewrite !bool_decide_eq_true_2.
    + unfold setattr_module, setattr_class, register_level; simpl.
      by rewrite setattr_twice, !insert_twice.
    + rewrite lookup_insert_eq. by eexists.
    + rewrite lookup_insert_eq. by eexists.
    + destruct (decide (levelName = name)) as [Hd|Hd].
      * rewrite Hd, lookup_insert_eq. by eexists.
      * rewrite lookup_insert_ne by done. rewrite lookup_insert_eq.
        by eexists.
  - simpl. by rewrite !lookup_insert_ne.
  - simpl. by rewrite !lookup_insert_ne.
  - simpl. by rewrite !lookup_insert_ne.
  - simpl. by rewrite !lookup_insert_ne.
Qed.
End logging_extras.

(** X16. From an intact [logging] library, [addLoggingLevel] does not
    refuse a name that is taken, its docstring notwithstanding.  With
    [warn], [addLevelName], [getLoggerClass] and [_loggerClass] as the
    library defines them, for ASCII names that do not begin with two
    underscores and a level name that is neither [getLoggerClass] nor
    [_loggerClass]
    (the two names it still needs after assigning the level), it returns
    normally, having warned once per name found, in the order level name
    in the module, method name in the module, method name in the class,
    and having overwritten whatever the names were bound to: the level is
    registered in both directions, the class and the module get the
    method, and the module gets the level constant, unless the method name
    equals the level name, in which case the module's name ends up bound to
    the function and not to the number. *)
Theorem X16_addLoggingLevel_overwrites (l : Logging.logging)
    (levelName : string) (levelNum : Z) (methodName : option string) :
  Logging.intact l = true →
  Logging.module_attrs l !! "warn" = Some Logging.Library →
  Logging.module_attrs l !! "addLevelName" = Some Logging.Library →
  Logging.module_attrs l !! "getLoggerClass" = Some Logging.Library →
  Logging.module_attrs l !! "_loggerClass" = Some Logging.Library →
  levelName ≠ "getLoggerClass" → levelName ≠ "_loggerClass" →
  let name := Logging.method_name levelName methodName in
  Logging.special levelName = false → Logging.special name = false →
  let run := Logging.addLoggingLevel levelName levelNum methodName l in
  outcome_of run = Ok tt ∧
  calls_of run
  = (if Logging.hasattr (Logging.module_attrs l) levelName
     then [Logging.Warn (Logging.already_in_module levelName)] else [])
    ++ (if Logging.hasattr (Logging.module_attrs l) name
        then [Logging.Warn (Logging.already_in_module name)] else [])
    ++ (if Logging.hasattr (Logging.class_attrs l) name
        then [Logging.Warn (Logging.already_in_class name)] else []) ∧
  Logging._levelToName (state_of run) !! levelNum = Some levelName ∧
  Logging._nameToLevel (state_of run) !! levelName = Some levelNum ∧
  Logging.class_attrs (state_of run) !! name
  = Some (Logging.logForLevel levelNum) ∧
  Logging.module_attrs (state_of run) !! name
  = Some (Logging.logToRoot levelNum) ∧
  Logging.module_attrs (state_of run) !! levelName
  = Some (if decide (name = levelName) then Logging.logToRoot levelNum
          else Logging.Level levelNum).
Proof.
  intros Hint Hwarn Hadd Hget Hcls Hne1 Hne2 name Hs1 Hs2 run.
  destruct (addLoggingLevel_bindings l levelName levelNum methodName
              Hint Hwarn Hadd Hget Hcls Hne1 Hne2 Hs1 Hs2)
    as (Hok & H1 & H2 & H3 & H4 & H5).
  repeat split; try assumption.
  unfold run. by rewrite addLoggingLevel_warns_and_registers.
Qed.

Lemma X16_addLoggingLevel_overwrites_witness :
  let run := Logging.addLoggingLevel "debug" 5 None Logging.stock in
  Logging.intact Logging.stock = true ∧
  outcome_of run = Ok tt ∧
  calls_of run
  = [Logging.Warn "debug already defined in logging module";
     Logging.Warn "debug already defined in logging module";
     Logging.Warn "debug already defined in logger class"] ∧
  Logging._nameToLevel (state_of run) !! "debug" = Some 5 ∧
  Logging.module_attrs (state_of run) !! "debug"
  = Some (Logging.logToRoot 5).
Proof.
  assert (Hwarn : Logging.module_attrs Logging.stock !! "warn"
                  = Some Logging.Library) by (vm_compute; reflexivity).
  assert (Hadd : Logging.module_attrs Logging.stock !! "addLevelName"
                 = Some Logging.Library) by (vm_compute; reflexivity).
  assert (Hget : Logging.module_attrs Logging.stock !! "getLoggerClass"
                 = Some Logging.Library) by (vm_compute; reflexivity).
  assert (Hcls : Logging.module_attrs Logging.stock !! "_loggerClass"
                 = Some Logging.Library) by (vm_compute; reflexivity).
  assert (Hne1 : "debug" ≠ "getLoggerClass") by discriminate.
  assert (Hne2 : "debug" ≠ "_loggerClass") by discriminate.
  assert (Hs : Logging.special "debug" = false) by reflexivity.
  split; [exact stock_intact|].
  exact (match X16_addLoggingLevel_overwrites Logging.stock "debug" 5 None
                 stock_intact Hwarn Hadd Hget Hcls Hne1 Hne2 Hs Hs with
         | conj Hok (conj Hcalls (conj _ (conj Hname (conj _ (conj _ Hmod)))))
           => conj Hok (conj Hcalls (conj Hname Hmod))
         end).
Defined.

(** X17. Adding a new level a second time changes nothing and warns three
    times.  From an intact library that defines [warn], [addLevelName],
    [getLoggerClass] and [_loggerClass], with a level name and a method
    name that are not names of the library (in the module or, for the
    method, on the class), are ASCII and do not begin with two
    underscores, the first
    [addLoggingLevel] returns normally and leaves the library intact, and a
    second call with the same arguments returns normally, leaves the
    module, the class and the level tables exactly as the first call left
    them, and issues the three warnings. *)
Theorem X17_addLoggingLevel_twice (l : Logging.logging)
    (levelName : string) (levelNum : Z) (methodName : option string) :
  Logging.intact l = true →
  Logging.module_library l !! "warn" = Some Logging.Library →
  Logging.module_library l !! "addLevelName" = Some Logging.Library →
  Logging.module_library l !! "getLoggerClass" = Some Logging.Library →
  Logging.module_library l !! "_loggerClass" = Some Logging.Library →
  let name := Logging.method_name levelName methodName in
  Logging.module_library l !! levelName = None →
  Logging.module_library l !! name = None →
  Logging.class_library l !! name = None →
  Logging.special levelName = false → Logging.special name = false →
  let first :=
    state_of (Logging.addLoggingLevel levelName levelNum methodName l) in
  outcome_of (Logging.addLoggingLevel levelName levelNum methodName l)
  = Ok tt ∧
  Logging.intact first = true ∧
  Logging.addLoggingLevel levelName levelNum methodName first
  = (first,
     [Logging.Warn (Logging.already_in_module levelName);
      Logging.Warn (Logging.already_in_module name);
      Logging.Warn (Logging.already_in_class name)],
     Ok tt).
Proof. apply addLoggingLevel_again. Qed.

Lemma X17_addLoggingLevel_twice_witness :
  let first :=
    state_of (Logging.addLoggingLevel "TRACE" 5 None Logging.stock) in
  Logging.intact Logging.stock = true ∧
  Logging.module_library Logging.stock !! "TRACE" = None ∧
  Logging.module_library Logging.stock !! "trace" = None ∧
  Logging.class_library Logging.stock !! "trace" = None ∧
  Logging.addLoggingLevel "TRACE" 5 None first
  = (first,
     [Logging.Warn (Logging.already_in_module "TRACE");
      Logging.Warn (Logging.already_in_module "trace");
      Logging.Warn (Logging.already_in_class "trace")],
     Ok tt).
Proof.
  assert (Hwarn : Logging.module_library Logging.stock !! "warn"
                  = Some Logging.Library) by (vm_compute; reflexivity).
  assert (Hadd : Logging.module_library Logging.stock !! "addLevelName"
                 = Some Logging.Library) by (vm_compute; reflexivity).
  assert (Hget : Logging.module_library Logging.stock !! "getLoggerClass"
                 = Some Logging.Library) by (vm_compute; reflexivity).
  assert (Hcls : Logging.module_library Logging.stock !! "_loggerClass"
                 = Some Logging.Library) by (vm_compute; reflexivity).
  assert (Hl : Logging.module_library Logging.stock !! "TRACE" = None)
    by (vm_compute; reflexivity).
  assert (Hn : Logging.module_library Logging.stock !! "trace" = None)
    by (vm_compute; reflexivity).
  assert (Hc : Logging.class_library Logging.stock !! "trace" = None)
    by (vm_compute; reflexivity).
  assert (Hs1 : Logging.special "TRACE" = false) by reflexivity.
  assert (Hs2 : Logging.special "trace" = false) by reflexivity.
  split; [exact stock_intact|]. split; [exact Hl|]. split; [exact Hn|].
  split; [exact Hc|].
  exact (proj2 (proj2 (X17_addLoggingLevel_twice Logging.stock "TRACE" 5
                         None stock_intact Hwarn Hadd Hget Hcls
                         Hl Hn Hc Hs1 Hs2))).
Defined.

(** X18. [init_logger] hands the caller's logger back and always adds a
    [NullHandler], last, before setting the level: with [stream] false and
    an empty [outfname] that is the only handler.  A stream handler is
    added first when [stream] is true, then a file handler on
    [outfname + '.log'] when [outfname] is not empty; both get the
    formatter immediately before they are added, the [NullHandler] gets
    none. *)
Theorem X18_init_logger_handlers {L : Type} (level : Z) (stream : bool)
    (outfname : string) (logger : L) :
  let run := InitLogger.init_logger level stream outfname logger in
  let formatted :=
    (if stream then [InitLogger.StreamHandler] else [])
    ++ (if truthy_str outfname
        then [InitLogger.FileHandler (outfname +:+ ".log")] else []) in
  outcome_of run = Ok logger ∧
  state_of run = logger ∧
  InitLogger.added (calls_of run) = formatted ++ [InitLogger.NullHandler] ∧
  calls_of run
  = (formatted
     ≫= λ h, [InitLogger.SetFormatter h; InitLogger.AddHandler h])
    ++ [InitLogger.AddHandler InitLogger.NullHandler;
        InitLogger.SetLevel level].
Proof.
  destruct stream, (truthy_str outfname) eqn:Ho;
    unfold InitLogger.init_logger, outcome_of, state_of, calls_of,
      bind, when, emit, get, ret; rewrite ?Ho; simpl;
    repeat split; reflexivity.
Qed.
